(** * Product aggregate of the swagger-api catalog backend

    A shallow embedding of [src/models/Product.js], [src/utils/cloudinary.js]
    and the product controller (handlers [updateProduct], [deleteProduct],
    [uploadProductImages], [deleteProductImage], [updateProductImages] and
    [addProductRating]), followed by the properties of the aggregate-update
    protocol.

    Conventions of the embedding:
    - a JavaScript number is an IEEE 754 binary64 value ([spec_float] with
      precision 53 and maximal exponent 1024), operated on with the
      specification-level operations of the Standard Library;
    - the document database is a finite map from product ids to documents;
      its operations ([findById], [save], [deleteOne], [findByIdAndUpdate])
      reject only where their definitions say so (an id that cannot be cast
      to an ObjectId, an update or a new document the schema refuses, a
      violated unique index); the connection itself is taken to be
      reliable, the other failures studied here are those of the asset
      store;
    - the asset store (Cloudinary) is an oracle that tells, for every call a
      handler issues, when its promise settles and whether it resolves or
      rejects; every call a handler issues to a collaborator is appended to
      a log, so that "no call was made" is a statement about the log;
    - a handler is a function from the world before the request to the HTTP
      response and the world after it. *)

From Stdlib Require Import ZArith List Bool String Lia.
From Stdlib Require Import SpecFloat.
From stdpp Require Import gmap strings list.

Open Scope Z_scope.

(** ** JavaScript numbers *)
Module Num.

Definition number : Type := spec_float.

Definition prec : Z := 53.
Definition emax : Z := 1024.

(** The number denoted by an integer literal. *)
Definition of_Z (z : Z) : number := binary_normalize prec emax z 0 false.

Definition add : number -> number -> number := SFadd prec emax.
Definition sub : number -> number -> number := SFsub prec emax.
Definition mul : number -> number -> number := SFmul prec emax.
Definition div : number -> number -> number := SFdiv prec emax.

(** [x > y], [x >= y] and [x == y] on numbers. *)
Definition gtb (x y : number) : bool := SFltb y x.
Definition geb (x y : number) : bool := SFleb y x.
Definition eqb (x y : number) : bool := SFeqb x y.

(** The values a binary64 variable can hold. *)
Definition representable (x : number) : bool := valid_binary prec emax x.

Definition is_nan (x : number) : bool :=
  match x with
  | S754_nan => true
  | _ => false
  end.

(** Neither an infinity nor NaN. *)
Definition is_finite (x : number) : bool :=
  match x with
  | S754_zero _ | S754_finite _ _ _ => true
  | S754_infinity _ | S754_nan => false
  end.

End Num.

Abbreviation number := Num.number.

(** ** The product document (models/Product.js) *)

Definition Buffer : Type := list Byte.byte.

Record Image := {
  image_id : string;               (* _id of the sub-document *)
  url : option string;
  public_id : option string
}.

Record Rating := {
  user : string;
  rating : number;
  review : option string;
  date : Z                         (* milliseconds since the epoch *)
}.

Inductive Status := active | inactive | outOfStock.

Record Product := {
  product_id : string;             (* _id *)
  name : string;
  description : string;
  price : number;
  category : string;
  images : list Image;
  quantity : number;
  status : Status;
  discount : number;
  finalPrice : number;
  sku : string;
  features : list string;
  ratings : list Rating;
  averageRating : number
}.

Definition set_images (imgs : list Image) (p : Product) : Product :=
  {| product_id := product_id p; name := name p; description := description p;
     price := price p; category := category p; images := imgs;
     quantity := quantity p; status := status p; discount := discount p;
     finalPrice := finalPrice p; sku := sku p; features := features p;
     ratings := ratings p; averageRating := averageRating p |}.

Definition set_ratings (rs : list Rating) (p : Product) : Product :=
  {| product_id := product_id p; name := name p; description := description p;
     price := price p; category := category p; images := images p;
     quantity := quantity p; status := status p; discount := discount p;
     finalPrice := finalPrice p; sku := sku p; features := features p;
     ratings := rs; averageRating := averageRating p |}.

Definition set_finalPrice (x : number) (p : Product) : Product :=
  {| product_id := product_id p; name := name p; description := description p;
     price := price p; category := category p; images := images p;
     quantity := quantity p; status := status p; discount := discount p;
     finalPrice := x; sku := sku p; features := features p;
     ratings := ratings p; averageRating := averageRating p |}.

Definition set_averageRating (x : number) (p : Product) : Product :=
  {| product_id := product_id p; name := name p; description := description p;
     price := price p; category := category p; images := images p;
     quantity := quantity p; status := status p; discount := discount p;
     finalPrice := finalPrice p; sku := sku p; features := features p;
     ratings := ratings p; averageRating := x |}.

Definition set_price (x : number) (p : Product) : Product :=
  {| product_id := product_id p; name := name p; description := description p;
     price := x; category := category p; images := images p;
     quantity := quantity p; status := status p; discount := discount p;
     finalPrice := finalPrice p; sku := sku p; features := features p;
     ratings := ratings p; averageRating := averageRating p |}.

Definition set_discount (x : number) (p : Product) : Product :=
  {| product_id := product_id p; name := name p; description := description p;
     price := price p; category := category p; images := images p;
     quantity := quantity p; status := status p; discount := x;
     finalPrice := finalPrice p; sku := sku p; features := features p;
     ratings := ratings p; averageRating := averageRating p |}.

(** The body of the [pre('save')] hook: the value it stores in [finalPrice]. *)
Definition recomputeFinalPrice (price discount : number) : number :=
  if Num.gtb discount (Num.of_Z 0)
  then Num.sub price (Num.mul price (Num.div discount (Num.of_Z 100)))
  else price.

(** [productSchema.pre('save', ...)]. *)
Definition pre_save (this : Product) : Product :=
  set_finalPrice (recomputeFinalPrice (price this) (discount this)) this.

(** The assignment part of [updateAverageRating]; the method then saves
    the document (see [updateAverageRating] below). *)
Definition recomputeAverageRating (ratings : list Rating) : number :=
  if (length ratings =? 0)%nat
  then Num.of_Z 0
  else
    let sum := fold_left (fun acc item => Num.add acc (rating item)) ratings (Num.of_Z 0) in
    Num.div sum (Num.of_Z (Z.of_nat (length ratings))).

(** ** Promises and the asset store (utils/cloudinary.js) *)

Record Error := { message : string }.

Inductive Settled (A : Type) :=
| Resolved (value : A)
| Rejected (reason : Error).
Arguments Resolved {A} value.
Arguments Rejected {A} reason.

(** A promise is described by the instant at which it settles and by the
    way it settles. *)
Record Promise (A : Type) := {
  settles_at : nat;
  outcome : Settled A
}.
Arguments settles_at {A} _.
Arguments outcome {A} _.

Definition resolved_now {A : Type} (v : A) : Promise A :=
  {| settles_at := 0%nat; outcome := Resolved v |}.

Record UploadResult := { secure_url : string; uploaded_public_id : string }.
Record DestroyResult := { result : string }.

(** The Cloudinary client. The first argument is the position of the call
    in the batch the handler issues, so that two calls with the same
    argument may settle differently. [destroy] resolves both when the asset
    was removed and when the store answers that it does not know the id;
    it rejects on any other failure. *)
Record Cloudinary := {
  upload_stream : nat -> Buffer -> Promise UploadResult;
  destroy : nat -> string -> Promise DestroyResult
}.

(** What a handler reads from its environment. *)
Record Env := {
  cloudinary : Cloudinary;
  Date_now : Z;
  ObjectId : nat -> string         (* _id of the n-th new sub-document *)
}.

Definition uploadToCloudinary (env : Env) (i : nat) (buffer : Buffer)
  : Promise UploadResult :=
  let p := upload_stream (cloudinary env) i buffer in
  match outcome p with
  | Rejected error => {| settles_at := settles_at p; outcome := Rejected error |}
  | Resolved result => {| settles_at := settles_at p; outcome := Resolved result |}
  end.

Definition deleteFromCloudinary (env : Env) (i : nat) (publicId : string)
  : Promise DestroyResult :=
  let p := destroy (cloudinary env) i publicId in
  match outcome p with
  | Resolved result => {| settles_at := settles_at p; outcome := Resolved result |}
  | Rejected error =>
      (* console.error(...); throw error *)
      {| settles_at := settles_at p; outcome := Rejected error |}
  end.

(** [Promise.all]: resolves with all the values, in the order of the
    promises, when every promise resolves; otherwise rejects with the
    reason of the promise that rejects first (the leftmost one among those
    that reject at the same instant). *)
Fixpoint earliest_rejection {A : Type} (ps : list (Promise A))
  : option (nat * Error) :=
  match ps with
  | [] => None
  | p :: ps' =>
      match outcome p, earliest_rejection ps' with
      | Resolved _, r => r
      | Rejected e, None => Some (settles_at p, e)
      | Rejected e, Some (t', e') =>
          if (settles_at p <=? t')%nat then Some (settles_at p, e) else Some (t', e')
      end
  end.

Fixpoint resolved_values {A : Type} (ps : list (Promise A)) : list A :=
  match ps with
  | [] => []
  | p :: ps' =>
      match outcome p with
      | Resolved v => v :: resolved_values ps'
      | Rejected _ => resolved_values ps'
      end
  end.

Definition Promise_all {A : Type} (ps : list (Promise A)) : Settled (list A) :=
  match earliest_rejection ps with
  | Some (_, e) => Rejected e
  | None => Resolved (resolved_values ps)
  end.

Definition rejects {A : Type} (p : Promise A) : Prop :=
  exists e, outcome p = Rejected e.

(** ** The world of a handler *)

Inductive Event :=
| FindById (id : string)
| FindByIdAndUpdate (id : string)
| Save (id : string)
| DeleteOne (id : string)
| UploadStream (buffer : Buffer)
| Destroy (publicId : string).

Record World := {
  db : gmap string Product;        (* the products collection *)
  calls : list Event               (* collaborator calls, oldest first *)
}.

(** A computation either yields a value or throws; both leave a world. *)
Definition M (A : Type) : Type := World -> Settled A * World.

Definition ret {A : Type} (a : A) : M A := fun w => (Resolved a, w).

Definition throw {A : Type} (e : Error) : M A := fun w => (Rejected e, w).

Definition bind {A B : Type} (k : A -> M B) (m : M A) : M B :=
  fun w =>
    match m w with
    | (Resolved a, w') => k a w'
    | (Rejected e, w') => (Rejected e, w')
    end.

#[export] Instance M_ret : MRet M := @ret.
#[export] Instance M_bind : MBind M := @bind.

Definition record (evs : list Event) : M unit :=
  fun w => (Resolved tt, {| db := db w; calls := calls w ++ evs |}).

(** [await p] for a promise that is already described. *)
Definition await {A : Type} (p : Promise A) : M A :=
  match outcome p with
  | Resolved v => ret v
  | Rejected e => throw e
  end.

(** [await Promise.all(ps)]. *)
Definition await_all {A : Type} (ps : list (Promise A)) : M (list A) :=
  match Promise_all ps with
  | Resolved vs => ret vs
  | Rejected e => throw e
  end.

(** *** The repository (Mongoose model [Product]) *)

(** An id that Mongoose can cast to an ObjectId: 24 hexadecimal digits. *)
Definition is_hex_digit (c : Ascii.ascii) : bool :=
  let n := Ascii.nat_of_ascii c in
  ((48 <=? n) && (n <=? 57) || (65 <=? n) && (n <=? 70) || (97 <=? n) && (n <=? 102))%nat.

Fixpoint all_hex_digits (s : string) : bool :=
  match s with
  | EmptyString => true
  | String c s' => is_hex_digit c && all_hex_digits s'
  end.

Definition is_ObjectId (id : string) : bool :=
  (String.length id =? 24)%nat && all_hex_digits id.

(** The error of a query whose id cannot be cast; its text stands for the
    one Mongoose composes. *)
Definition cast_error : Error := {| message := "Cast to ObjectId failed" |}.

(** [Product.findById(id)]: the id is cast to an ObjectId and the document
    with that [_id] is looked up. The ids of the stored documents are
    ObjectIds, so the cast has succeeded whenever the lookup finds a
    document; on a miss the query resolves with [null] for an id that can
    be cast and rejects with a CastError for one that cannot. *)
Definition findById (id : string) : M (option Product) :=
  fun w =>
    let w' := {| db := db w; calls := calls w ++ [FindById id] |} in
    match db w !! id with
    | Some product => (Resolved (Some product), w')
    | None =>
        if is_ObjectId id then (Resolved None, w') else (Rejected cast_error, w')
    end.

(** [product.save()] on a document that was loaded from the collection:
    runs the [pre('save')] hook, writes the document and yields it. The
    validation that precedes the hook is taken to pass: the document was
    validated when it was written, and the handlers below change only its
    images, which have no validators, and its ratings, with a score the
    route has validated. The save of a new document, where the body is
    validated for the first time, is [insert_new] below. *)
Definition save (product : Product) : M Product :=
  fun w =>
    let saved := pre_save product in
    (Resolved saved,
     {| db := <[product_id product := saved]> (db w);
        calls := calls w ++ [Save (product_id product)] |}).

Definition deleteOne (product : Product) : M unit :=
  fun w => (Resolved tt,
            {| db := delete (product_id product) (db w);
               calls := calls w ++ [DeleteOne (product_id product)] |}).

(** [updateAverageRating]: a method of the document. *)
Definition updateAverageRating (this : Product) : M Product :=
  save (set_averageRating (recomputeAverageRating (ratings this)) this).

(** The fields of the body of [PUT /api/products/:id] that the properties
    below look at; a key that the body does not carry is [None]. *)
Record ProductUpdate := {
  new_name : option string;
  new_price : option number;
  new_discount : option number;
  new_finalPrice : option number;
  new_quantity : option number
}.

Definition apply_update (u : ProductUpdate) (p : Product) : Product :=
  {| product_id := product_id p;
     name := default (name p) (new_name u);
     description := description p;
     price := default (price p) (new_price u);
     category := category p; images := images p;
     quantity := default (quantity p) (new_quantity u);
     status := status p;
     discount := default (discount p) (new_discount u);
     finalPrice := default (finalPrice p) (new_finalPrice u);
     sku := sku p; features := features p;
     ratings := ratings p; averageRating := averageRating p |}.

(** [min] and [max] validators of the schema, for a path the update sets. *)
Definition at_least (lo : Z) (x : option number) : bool :=
  match x with
  | Some v => Num.geb v (Num.of_Z lo)
  | None => true
  end.

Definition at_most (hi : Z) (x : option number) : bool :=
  match x with
  | Some v => Num.geb (Num.of_Z hi) v
  | None => true
  end.

Definition update_validators (u : ProductUpdate) : bool :=
  at_least 0 (new_price u) && at_least 0 (new_quantity u)
  && at_least 0 (new_discount u) && at_most 100 (new_discount u)
  && at_least 0 (new_finalPrice u).

(** [Product.findByIdAndUpdate(id, update, { new: true, runValidators: true })]:
    a query; it validates the paths the update sets and writes them. The
    document middleware ([pre('save')]) is not part of it. The text of the
    validation error stands for the one Mongoose composes. The id is cast
    as in [findById], before the validators run. *)
Definition findByIdAndUpdate (id : string) (update : ProductUpdate)
  : M (option Product) :=
  fun w =>
    let log := calls w ++ [FindByIdAndUpdate id] in
    match db w !! id, is_ObjectId id with
    | None, false => (Rejected cast_error, {| db := db w; calls := log |})
    | found, _ =>
        if update_validators update then
          match found with
          | None => (Resolved None, {| db := db w; calls := log |})
          | Some p =>
              let p' := apply_update update p in
              (Resolved (Some p'), {| db := <[id := p']> (db w); calls := log |})
          end
        else (Rejected {| message := "Validation failed" |},
              {| db := db w; calls := log |})
    end.

(** ** Requests and responses *)

Record File := { buffer : Buffer }.

Record Request := {
  params_id : string;                         (* req.params.id *)
  params_imageId : string;                    (* req.params.imageId *)
  files : option (list File);                 (* req.files *)
  body_imagesToDelete : option (list string); (* req.body.imagesToDelete *)
  body_rating : number;                       (* req.body.rating *)
  body_review : option string;                (* req.body.review *)
  body_update : ProductUpdate;                (* req.body of the generic update *)
  user_id : string;                           (* req.user._id *)
  validation_errors : list string             (* validationResult(req).array() *)
}.

Inductive Json :=
| Failure (error : string)         (* { success: false, error } *)
| Data (data : Product)            (* { success: true, data } *)
| Message (text : string)          (* { success: true, message } *)
| Errors (errors : list string).   (* { errors } *)

Record Response := { status_code : nat; json : Json }.

Definition Handler : Type := Env -> Request -> World -> Response * World.

(** [try { body } catch (error) { res.status(500).json(...) }]. *)
Definition try_catch (body : M Response) : World -> Response * World :=
  fun w =>
    match body w with
    | (Resolved res, w') => (res, w')
    | (Rejected error, w') =>
        ({| status_code := 500; json := Failure (message error) |}, w')
    end.

Definition not_found (what : string) : Response :=
  {| status_code := 404; json := Failure what |}.

(** What a handler answers after [findById] or [findByIdAndUpdate] found
    nothing under [id]: 404 when the query resolved with [null], and the
    500 of the catch block when the id could not be cast. *)
Definition answer_to_unknown (id : string) : Response :=
  if is_ObjectId id
  then not_found "Product not found"
  else {| status_code := 500; json := Failure (message cast_error) |}.

(** A string that is present and not empty. *)
Definition truthy (s : option string) : option string :=
  match s with
  | Some (String c s') => Some (String c s')
  | _ => None
  end.

(** Issue a call to the asset store and wait for it. *)
Definition call {A : Type} (ev : Event) (p : Promise A) : M A :=
  record [ev];; await p.

Definition has_id (imageId : string) (img : Image) : bool :=
  String.eqb (image_id img) imageId.

Definition uploaded_image (env : Env) (i : nat) (image : UploadResult) : Image :=
  {| image_id := ObjectId env i;
     url := Some (secure_url image);
     public_id := Some (uploaded_public_id image) |}.

(** ** The product controller *)

Definition updateProduct : Handler := fun env req =>
  try_catch (
    product ← findByIdAndUpdate (params_id req) (body_update req);
    match product with
    | None => mret (not_found "Product not found")
    | Some product => mret {| status_code := 200; json := Data product |}
    end).

(** The loop of [deleteProduct] over [product.images]; [i] is the position
    of the head of [images] in the list of the product. *)
Fixpoint delete_images (env : Env) (i : nat) (images : list Image) : M unit :=
  match images with
  | [] => mret tt
  | image :: rest =>
      match truthy (public_id image) with
      | Some publicId =>
          call (Destroy publicId) (deleteFromCloudinary env i publicId);;
          delete_images env (S i) rest
      | None => delete_images env (S i) rest
      end
  end.

Definition deleteProduct : Handler := fun env req =>
  try_catch (
    product ← findById (params_id req);
    match product with
    | None => mret (not_found "Product not found")
    | Some product =>
        delete_images env 0 (images product);;
        deleteOne product;;
        mret {| status_code := 200; json := Message "Product deleted successfully" |}
    end).

(** [req.files.map(file => uploadToCloudinary(file.buffer))] followed by
    [await Promise.all(...)] and the mapping to image entries: every upload
    is issued before the first one is waited for. *)
Definition upload_all (env : Env) (files : list File) : M (list Image) :=
  let uploadPromises := imap (fun i file => uploadToCloudinary env i (buffer file)) files in
  record (map (fun file => UploadStream (buffer file)) files);;
  uploadedImages ← await_all uploadPromises;
  mret (imap (uploaded_image env) uploadedImages).

Definition uploadProductImages : Handler := fun env req =>
  try_catch (
    match files req with
    | None | Some [] =>
        mret {| status_code := 400; json := Failure "Please upload at least one image" |}
    | Some files =>
        product ← findById (params_id req);
        match product with
        | None => mret (not_found "Product not found")
        | Some product =>
            newImages ← upload_all env files;
            product ← save (set_images (images product ++ newImages) product);
            mret {| status_code := 200; json := Data product |}
        end
    end).

Definition deleteProductImage : Handler := fun env req =>
  try_catch (
    let imageId := params_imageId req in
    product ← findById (params_id req);
    match product with
    | None => mret (not_found "Product not found")
    | Some product =>
        match List.find (has_id imageId) (images product) with
        | None => mret (not_found "Image not found")
        | Some imageToDelete =>
            match truthy (public_id imageToDelete) with
            | Some publicId =>
                call (Destroy publicId) (deleteFromCloudinary env 0 publicId);;
                mret tt
            | None => mret tt
            end;;
            save (set_images
                    (List.filter (fun img => negb (has_id imageId img)) (images product))
                    product);;
            mret {| status_code := 200; json := Message "Image deleted successfully" |}
        end
    end).

(** One element of [deletePromises]: the asynchronous callback runs up to
    its first [await], so the call to the asset store, when there is one,
    is issued while the promises are being built. *)
Definition delete_call (env : Env) (images : list Image) (i : nat) (imageId : string)
  : list Event * Promise unit :=
  match List.find (has_id imageId) images with
  | Some image =>
      match truthy (public_id image) with
      | Some publicId =>
          let p := deleteFromCloudinary env i publicId in
          ([Destroy publicId],
           {| settles_at := settles_at p;
              outcome := match outcome p with
                         | Resolved _ => Resolved tt
                         | Rejected e => Rejected e
                         end |})
      | None => ([], resolved_now tt)
      end
  | None => ([], resolved_now tt)
  end.

Definition includes (ids : list string) (id : string) : bool :=
  existsb (String.eqb id) ids.

Definition delete_all (env : Env) (imagesToDelete : list string) (images : list Image)
  : M (list Image) :=
  let deleteCalls := imap (delete_call env images) imagesToDelete in
  record (concat (map fst deleteCalls));;
  await_all (map snd deleteCalls);;
  mret (List.filter (fun img => negb (includes imagesToDelete (image_id img))) images).

Definition updateProductImages : Handler := fun env req =>
  try_catch (
    product ← findById (params_id req);
    match product with
    | None => mret (not_found "Product not found")
    | Some product =>
        kept ← match body_imagesToDelete req with
               | None | Some [] => mret (images product)
               | Some imagesToDelete => delete_all env imagesToDelete (images product)
               end;
        newImages ← match files req with
                    | None | Some [] => mret []
                    | Some files => upload_all env files
                    end;
        product ← save (set_images (kept ++ newImages) product);
        mret {| status_code := 200; json := Data product |}
    end).

(** [Array.prototype.findIndex]: the index of the first element that
    satisfies [f], or -1. *)
Fixpoint findIndex_from {A : Type} (f : A -> bool) (l : list A) (i : Z) : Z :=
  match l with
  | [] => -1
  | x :: l' => if f x then i else findIndex_from f l' (i + 1)
  end.

Definition findIndex {A : Type} (f : A -> bool) (l : list A) : Z :=
  findIndex_from f l 0.

Definition rated_by (rater : string) (r : Rating) : bool :=
  String.eqb (user r) rater.

(** The entry [addProductRating] writes; the branch that pushes leaves the
    date to the default of the schema, which is [Date.now] as well. The
    assignment [product.ratings[i] = ...] is an update of the document
    array at index [i], which [save] then writes. *)
Definition submitted_rating (env : Env) (req : Request) : Rating :=
  {| user := user_id req;
     rating := body_rating req;
     review := body_review req;
     date := Date_now env |}.

Definition addProductRating : Handler := fun env req =>
  try_catch (
    match validation_errors req with
    | _ :: _ => mret {| status_code := 400; json := Errors (validation_errors req) |}
    | [] =>
        product ← findById (params_id req);
        match product with
        | None => mret (not_found "Product not found")
        | Some product =>
            let existingRatingIndex :=
              findIndex (rated_by (user_id req)) (ratings product) in
            let ratings' :=
              if 0 <=? existingRatingIndex
              then <[Z.to_nat existingRatingIndex := submitted_rating env req]> (ratings product)
              else ratings product ++ [submitted_rating env req] in
            product ← updateAverageRating (set_ratings ratings' product);
            mret {| status_code := 200; json := Data product |}
        end
    end).

(** ** Observations on a run *)

Definition initial (products : gmap string Product) : World :=
  {| db := products; calls := [] |}.

Definition is_upload (ev : Event) : bool :=
  match ev with UploadStream _ => true | _ => false end.

Definition is_destroy (ev : Event) : bool :=
  match ev with Destroy _ => true | _ => false end.

Definition is_write (ev : Event) : bool :=
  match ev with
  | Save _ | DeleteOne _ | FindByIdAndUpdate _ => true
  | _ => false
  end.

(** The image list stored for a product, if the product is stored. *)
Definition persisted_images (w : World) (id : string) : option (list Image) :=
  images <$> db w !! id.

(** Whether the upload (resp. the deletion) at a position of a batch
    succeeds. *)
Definition upload_ok (env : Env) (i : nat) (file : File) : bool :=
  match outcome (upload_stream (cloudinary env) i (buffer file)) with
  | Resolved _ => true
  | Rejected _ => false
  end.

Definition destroy_ok (env : Env) (i : nat) (publicId : string) : bool :=
  match outcome (destroy (cloudinary env) i publicId) with
  | Resolved _ => true
  | Rejected _ => false
  end.

(** The asset ids of the images that have one, in the order of the images. *)
Definition asset_ids (images : list Image) : list string :=
  omap (fun img => truthy (public_id img)) images.

(** The asset id behind an image id of a product, if the image exists and
    has one. *)
Definition asset_of (images : list Image) (imageId : string) : option string :=
  match List.find (has_id imageId) images with
  | Some image => truthy (public_id image)
  | None => None
  end.

Definition count_rated_by (rater : string) (rs : list Rating) : nat :=
  length (List.filter (rated_by rater) rs).

(** ** A small catalog used to run the handlers *)
Module Sample.

Definition imgA : Image :=
  {| image_id := "A"; url := Some "https://cdn/a.png"; public_id := Some "products/a" |}.
Definition imgB : Image :=
  {| image_id := "B"; url := Some "https://cdn/b.png"; public_id := Some "products/b" |}.
Definition imgC : Image :=
  {| image_id := "C"; url := Some "https://cdn/c.png"; public_id := Some "products/c" |}.

Definition ann_rating : Rating :=
  {| user := "64f1a2b3c4d5e6f7081920a1"; rating := Num.of_Z 3; review := None; date := 1000 |}.
Definition bob_rating : Rating :=
  {| user := "64f1a2b3c4d5e6f7081920b2"; rating := Num.of_Z 5; review := Some "works as described"; date := 2000 |}.

(** A stored product: price 100, no discount, three images, two ratings. *)
Definition lamp : Product :=
  {| product_id := "64f1a2b3c4d5e6f708192a01"; name := "Lamp"; description := "A desk lamp";
     price := Num.of_Z 100; category := "64f1a2b3c4d5e6f7081920c1";
     images := [imgA; imgB; imgC];
     quantity := Num.of_Z 7; status := active;
     discount := Num.of_Z 0; finalPrice := Num.of_Z 100;
     sku := "LAMP-1"; features := [];
     ratings := [ann_rating; bob_rating];
     averageRating := Num.of_Z 4 |}.

Definition catalog : gmap string Product := {[ "64f1a2b3c4d5e6f708192a01" := lamp ]}.

Definition file1 : File := {| buffer := [Byte.x01] |}.
Definition file2 : File := {| buffer := [Byte.x02] |}.
Definition file3 : File := {| buffer := [Byte.x03] |}.

Definition uploaded (i : nat) : UploadResult :=
  match i with
  | O => {| secure_url := "https://cdn/new0.png"; uploaded_public_id := "products/new0" |}
  | 1%nat => {| secure_url := "https://cdn/new1.png"; uploaded_public_id := "products/new1" |}
  | _ => {| secure_url := "https://cdn/new2.png"; uploaded_public_id := "products/new2" |}
  end.

(** An asset store in which the uploads at the positions [bad_uploads]
    and the deletions of the ids [bad_destroys] reject; the call at
    position [i] settles at instant [i]. *)
Definition store (bad_uploads : list nat) (bad_destroys : list string) : Cloudinary :=
  {| upload_stream := fun i _ =>
       {| settles_at := i;
          outcome := if existsb (Nat.eqb i) bad_uploads
                     then Rejected {| message := "Upload failed" |}
                     else Resolved (uploaded i) |};
     destroy := fun i publicId =>
       {| settles_at := i;
          outcome := if existsb (String.eqb publicId) bad_destroys
                     then Rejected {| message := "Destroy failed" |}
                     else Resolved {| result := "ok" |} |} |}.

Definition new_id (n : nat) : string :=
  match n with
  | O => "N0"
  | 1%nat => "N1"
  | _ => "N2"
  end.

Definition env (bad_uploads : list nat) (bad_destroys : list string) : Env :=
  {| cloudinary := store bad_uploads bad_destroys;
     Date_now := 5000;
     ObjectId := new_id |}.

Definition no_update : ProductUpdate :=
  {| new_name := None; new_price := None; new_discount := None;
     new_finalPrice := None; new_quantity := None |}.

(** A request on the lamp that carries nothing else. *)
Definition bare : Request :=
  {| params_id := "64f1a2b3c4d5e6f708192a01"; params_imageId := ""; files := None;
     body_imagesToDelete := None; body_rating := Num.of_Z 0;
     body_review := None; body_update := no_update;
     user_id := "64f1a2b3c4d5e6f7081920a1"; validation_errors := [] |}.

(** The same request on an id that is not an ObjectId, and under which
    nothing is stored. *)
Definition unknown_lamp : Request :=
  {| params_id := "lamp"; params_imageId := EmptyString; files := None;
     body_imagesToDelete := None; body_rating := Num.of_Z 0;
     body_review := None; body_update := no_update;
     user_id := "64f1a2b3c4d5e6f7081920a1"; validation_errors := [] |}.

Definition with_files (fs : list File) (req : Request) : Request :=
  {| params_id := params_id req; params_imageId := params_imageId req;
     files := Some fs; body_imagesToDelete := body_imagesToDelete req;
     body_rating := body_rating req; body_review := body_review req;
     body_update := body_update req; user_id := user_id req;
     validation_errors := validation_errors req |}.

Definition with_imagesToDelete (ids : list string) (req : Request) : Request :=
  {| params_id := params_id req; params_imageId := params_imageId req;
     files := files req; body_imagesToDelete := Some ids;
     body_rating := body_rating req; body_review := body_review req;
     body_update := body_update req; user_id := user_id req;
     validation_errors := validation_errors req |}.

Definition with_imageId (imageId : string) (req : Request) : Request :=
  {| params_id := params_id req; params_imageId := imageId;
     files := files req; body_imagesToDelete := body_imagesToDelete req;
     body_rating := body_rating req; body_review := body_review req;
     body_update := body_update req; user_id := user_id req;
     validation_errors := validation_errors req |}.

Definition with_rating (rater : string) (score : Z) (text : option string)
  (req : Request) : Request :=
  {| params_id := params_id req; params_imageId := params_imageId req;
     files := files req; body_imagesToDelete := body_imagesToDelete req;
     body_rating := Num.of_Z score; body_review := text;
     body_update := body_update req; user_id := rater;
     validation_errors := validation_errors req |}.

Definition with_update (u : ProductUpdate) (req : Request) : Request :=
  {| params_id := params_id req; params_imageId := params_imageId req;
     files := files req; body_imagesToDelete := body_imagesToDelete req;
     body_rating := body_rating req; body_review := body_review req;
     body_update := u; user_id := user_id req;
     validation_errors := validation_errors req |}.

End Sample.

(** ** Creating a product *)

(** The error of the database driver for a violated unique index. *)
Definition duplicate_key : Z := 11000.

(** Whether a stored product already has this SKU ([sku] is declared
    [unique] in the schema). *)
Definition sku_taken (products : gmap string Product) (s : string) : bool :=
  existsb (fun kv => String.eqb (sku kv.2) s) (map_to_list products).

(** The validators of [productSchema] on a whole document, as they run
    when a document is saved: the ids are ObjectIds, the required strings
    are not empty, and the numbers satisfy their [min] and [max] (which NaN
    never does; a number path holds no NaN). [status] is one of the three
    values of the enum by its type. [finalPrice] is validated as the
    document carries it, before the hook computes it; a body that gives no
    [finalPrice] is the document with [finalPrice] 0, which passes as the
    absent value does. *)
Definition rating_valid (r : Rating) : bool :=
  is_ObjectId (user r)
  && Num.geb (rating r) (Num.of_Z 1) && Num.geb (Num.of_Z 5) (rating r).

Definition schema_valid (p : Product) : bool :=
  is_ObjectId (product_id p)
  && negb (String.eqb (name p) EmptyString)
  && negb (String.eqb (description p) EmptyString)
  && Num.geb (price p) (Num.of_Z 0)
  && is_ObjectId (category p)
  && Num.geb (quantity p) (Num.of_Z 0)
  && Num.geb (discount p) (Num.of_Z 0) && Num.geb (Num.of_Z 100) (discount p)
  && Num.geb (finalPrice p) (Num.of_Z 0)
  && negb (String.eqb (sku p) EmptyString)
  && forallb rating_valid (ratings p)
  && negb (Num.is_nan (averageRating p)).

(** The error of a document the schema refuses; it has no [code]. Its
    text stands for the one Mongoose composes. *)
Definition validation_error : Error := {| message := "Product validation failed" |}.

(** [product.save()] on a document that is new: the document is validated,
    the [pre('save')] hook runs, then the document is inserted unless its
    [_id] or its SKU is already in the collection, in which case the driver
    rejects with the code [duplicate_key]. The text of that error stands
    for the one the driver composes. The first component of an error is
    its [code], if it has one. *)
Definition insert_new (product : Product) (w : World)
  : (Product + option Z * Error) * World :=
  let saved := pre_save product in
  let log := calls w ++ [Save (product_id product)] in
  if schema_valid product then
    match db w !! product_id product with
    | None =>
        if sku_taken (db w) (sku product)
        then (inr (Some duplicate_key, {| message := "E11000 duplicate key error" |}),
              {| db := db w; calls := log |})
        else (inl saved, {| db := <[product_id product := saved]> (db w); calls := log |})
    | Some _ =>
        (inr (Some duplicate_key, {| message := "E11000 duplicate key error" |}),
         {| db := db w; calls := log |})
    end
  else (inr (None, validation_error), {| db := db w; calls := log |}).

(** [createProduct]; [document] is [new Product(req.body)]. An error of
    the asset store carries no driver code. *)
Definition createProduct (document : Product) : Handler := fun env req w =>
  match validation_errors req with
  | _ :: _ => ({| status_code := 400; json := Errors (validation_errors req) |}, w)
  | [] =>
      let uploaded :=
        match files req with
        | None | Some [] => (Resolved document, w)
        | Some files =>
            match upload_all env files w with
            | (Resolved uploadedImages, w') =>
                (Resolved (set_images uploadedImages document), w')
            | (Rejected error, w') => (Rejected error, w')
            end
        end in
      match uploaded with
      | (Rejected error, w') =>
          ({| status_code := 500; json := Failure (message error) |}, w')
      | (Resolved product, w') =>
          match insert_new product w' with
          | (inl saved, w'') => ({| status_code := 201; json := Data saved |}, w'')
          | (inr (code, error), w'') =>
              if bool_decide (code = Some duplicate_key)
              then ({| status_code := 400;
                       json := Failure "Product with this SKU already exists" |}, w'')
              else ({| status_code := 500; json := Failure (message error) |}, w'')
          end
      end
  end.

(** No two stored products share a SKU. *)
Definition unique_skus (products : gmap string Product) : Prop :=
  forall i j p q,
    products !! i = Some p -> products !! j = Some q -> sku p = sku q -> i = j.

(** Every product is stored under its own [_id]. *)
Definition keyed_by_id (products : gmap string Product) : Prop :=
  forall i p, products !! i = Some p -> product_id p = i.

(** ** Categories (models/Category.js) *)

From Stdlib Require Import Ascii.

Record Category := {
  category_name : string;
  category_description : string;
  slug : string
}.

Definition in_range (lo hi : nat) (c : ascii) : bool :=
  (lo <=? nat_of_ascii c)%nat && (nat_of_ascii c <=? hi)%nat.

(** [String.prototype.toLowerCase] on one code unit below 256: the
    letters A-Z and the capital letters of Latin-1 move up by 32. *)
Definition toLowerCase_unit (c : ascii) : ascii :=
  if in_range 65 90 c
     || (in_range 192 222 c && negb (nat_of_ascii c =? 215)%nat)
  then ascii_of_nat (nat_of_ascii c + 32)
  else c.

(** A code unit matched by [/[^a-zA-Z0-9]/]. *)
Definition not_alphanumeric (c : ascii) : bool :=
  negb (in_range 97 122 c || in_range 65 90 c || in_range 48 57 c).

Fixpoint map_units (f : ascii -> ascii) (s : string) : string :=
  match s with
  | EmptyString => EmptyString
  | String c s' => String (f c) (map_units f s')
  end.

Definition toLowerCase (s : string) : string := map_units toLowerCase_unit s.

(** [s.replace(/[^a-zA-Z0-9]/g, '-')]. *)
Definition replace_not_alphanumeric (s : string) : string :=
  map_units (fun c => if not_alphanumeric c then "-"%char else c) s.

(** [categorySchema.pre('save', ...)], on names whose code units are below
    256. *)
Definition category_pre_save (this : Category) : Category :=
  {| category_name := category_name this;
     category_description := category_description this;
     slug := replace_not_alphanumeric (toLowerCase (category_name this)) |}.

(** A code unit of [a-z0-9-]. *)
Definition slug_unit (c : ascii) : bool :=
  in_range 97 122 c || in_range 48 57 c || (nat_of_ascii c =? 45)%nat.

Fixpoint all_units (f : ascii -> bool) (s : string) : bool :=
  match s with
  | EmptyString => true
  | String c s' => f c && all_units f s'
  end.

(** ** Shapes of a run, used to state what the handlers leave alone *)

(** [q] differs from [p] at most in its images, its ratings and the two
    derived fields. *)
Definition same_core (q p : Product) : Prop :=
  product_id q = product_id p /\ name q = name p
  /\ description q = description p /\ price q = price p
  /\ category q = category p /\ quantity q = quantity p
  /\ status q = status p /\ discount q = discount p
  /\ sku q = sku p /\ features q = features p.

(** The run of a handler that writes through [save]: either the answer
    is not 200 and the collection is as before, or the answer is 200 and
    the product found under the id of the request was saved, with its core
    fields as they were. *)
Definition saves_or_nothing (h : Handler) : Prop :=
  forall (env : Env) (req : Request) (products : gmap string Product),
    let run := h env req (initial products) in
    (status_code run.1 <> 200%nat /\ db run.2 = products)
    \/ (status_code run.1 = 200%nat
        /\ exists product q,
             products !! params_id req = Some product
             /\ same_core q product
             /\ db run.2 = <[product_id product := pre_save q]> products).

(** ** A second product, for runs on a collection of two *)
Module Shop.

Definition shade : Product :=
  {| product_id := "64f1a2b3c4d5e6f708192a02"; name := "Shade"; description := "A lamp shade";
     price := Num.of_Z 40; category := "64f1a2b3c4d5e6f7081920c1";
     images := [];
     quantity := Num.of_Z 3; status := active;
     discount := Num.of_Z 25; finalPrice := Num.of_Z 30;
     sku := "SHADE-1"; features := [];
     ratings := [];
     averageRating := Num.of_Z 0 |}.

Definition two_products : gmap string Product := <["64f1a2b3c4d5e6f708192a02" := shade]> Sample.catalog.



(** A request on the shade that carries nothing else. *)
Definition on_shade : Request :=
  {| params_id := "64f1a2b3c4d5e6f708192a02"; params_imageId := EmptyString; files := None;
     body_imagesToDelete := None; body_rating := Num.of_Z 0;
     body_review := None; body_update := Sample.no_update;
     user_id := "64f1a2b3c4d5e6f7081920a1"; validation_errors := [] |}.

End Shop.

(** ** Updating a profile (controllers/userController.js) *)

(** The user document is seen as a finite map from its paths to their
    values, the body of the request as the list of its keys and values;
    the values are left abstract, and so is [req.user.save()], which
    belongs to the user model. The second component of a run lists the
    documents handed to [save]. *)
Section Profile.

Context {Value : Type}.

Inductive ProfileJson :=
| ProfileFailure (error : string)              (* { success: false, error } *)
| ProfileData (data : gmap string Value)       (* { success: true, data } *)
| ProfileErrors (errors : list string).        (* { errors } *)

Record ProfileResponse := { profile_status : nat; profile_json : ProfileJson }.

Definition allowedUpdates : list string := ["name"; "email"].

(** [req.body[key]]. *)
Definition body_value (body : list (string * Value)) (key : string) : option Value :=
  snd <$> List.find (fun kv => String.eqb kv.1 key) body.

(** [updates.forEach(update => req.user[update] = req.body[update])]. *)
Definition assign_updates (body : list (string * Value)) (updates : list string)
           (user : gmap string Value) : gmap string Value :=
  fold_left (fun u update =>
               match body_value body update with
               | Some v => <[update := v]> u
               | None => u
               end) updates user.

Definition updateProfile (save : gmap string Value -> Settled (gmap string Value))
           (errors : list string) (body : list (string * Value))
           (user : gmap string Value)
  : ProfileResponse * list (gmap string Value) :=
  match errors with
  | _ :: _ => ({| profile_status := 400; profile_json := ProfileErrors errors |}, [])
  | [] =>
      let updates := map fst body in
      let isValidOperation :=
        forallb (fun update => existsb (String.eqb update) allowedUpdates) updates in
      if negb isValidOperation
      then ({| profile_status := 400; profile_json := ProfileFailure "Invalid updates" |}, [])
      else
        let user' := assign_updates body updates user in
        match save user' with
        | Resolved saved =>
            ({| profile_status := 200; profile_json := ProfileData saved |}, [user'])
        | Rejected error =>
            ({| profile_status := 500; profile_json := ProfileFailure (message error) |},
             [user'])
        end
  end.

End Profile.

Arguments ProfileJson Value : clear implicits.
Arguments ProfileResponse Value : clear implicits.

(** A user with a role, and a [save] that stores what it is given. *)
Definition sample_user : gmap string string :=
  <["role" := "user"]> (<["email" := "ann@example.org"]> {[ "name" := "Ann" ]}).

Definition plain_save (user : gmap string string) : Settled (gmap string string) :=
  Resolved user.

(** * Properties *)

(** ** Binary64 arithmetic used by the derived fields *)
Section Binary64.

Lemma digits_shift52 (m : positive) :
  Z.pos (digits2_pos (Pos.iter xO m 52)) = Z.pos (digits2_pos m) + 52.
Proof.
  cbv [Pos.iter]. cbn [digits2_pos]. rewrite !Pos2Z.inj_succ. lia.
Qed.

Lemma shr_shift52 (m : positive) :
  SpecFloat.iter_pos shr_1 52
    (shr_record_of_loc (Z.pos (Pos.iter xO m 52)) loc_Exact)
  = {| shr_m := Z.pos m; shr_r := false; shr_s := false |}.
Proof. reflexivity. Qed.

(** Multiplying a finite binary64 value by 1 is exact. *)
Lemma mul_one_finite (s : bool) (m : positive) (e : Z) :
  bounded Num.prec Num.emax m e = true ->
  Num.mul (S754_finite s m e) (Num.of_Z 1) = S754_finite s m e.
Proof.
  intros Hb. unfold bounded, canonical_mantissa in Hb.
  apply andb_true_iff in Hb as [Hc He].
  apply Z.eqb_eq in Hc. apply Z.leb_le in He.
  change (Num.of_Z 1) with (S754_finite false 4503599627370496 (-52)).
  unfold Num.mul, SFmul.
  change (m * 4503599627370496)%positive with (m * Pos.iter xO 1 52)%positive.
  replace (m * Pos.iter xO 1 52)%positive with (Pos.iter xO m 52)
    by (rewrite Pos.mul_comm; reflexivity).
  unfold binary_round_aux, shr_fexp.
  unfold Zdigits2 at 1. rewrite digits_shift52.
  unfold fexp, emin, Num.prec, Num.emax in *.
  replace (Z.max (Z.pos (digits2_pos m) + 52 + (e + -52) - 53) (3 - 1024 - 53) - (e + -52))
    with 52 by lia.
  unfold shr at 1.
  rewrite shr_shift52.
  cbn [shr_m loc_of_shr_record round_nearest_even Zdigits2 shr_record_of_loc].
  replace (e + -52 + 52) with e by lia.
  replace (Z.max (Z.pos (digits2_pos m) + e - 53) (3 - 1024 - 53) - e) with 0 by lia.
  cbn [shr shr_m].
  replace (e <=? 1024 - 53) with true by (symmetry; apply Z.leb_le; lia).
  now rewrite xorb_false_r.
Qed.

Lemma mul_one (x : number) :
  Num.representable x = true -> Num.is_finite x = true ->
  Num.mul x (Num.of_Z 1) = x.
Proof.
  destruct x as [s | s | | s m e]; intros Hv Hf; try discriminate Hf.
  - now destruct s.
  - apply mul_one_finite. exact Hv.
Qed.

(** A finite value minus itself is +0. *)
Lemma sub_diag (x : number) :
  Num.is_finite x = true -> Num.sub x x = Num.of_Z 0.
Proof.
  destruct x as [s | s | | s m e]; intros Hf; try discriminate Hf.
  - now destruct s.
  - unfold Num.sub, SFsub. rewrite Z.min_id.
    unfold shl_align. now rewrite !Z.sub_diag.
Qed.

Lemma eqb_refl (x : number) :
  Num.is_finite x = true -> Num.eqb x x = true.
Proof.
  destruct x as [s | s | | s m e]; intros Hf; try discriminate Hf.
  - reflexivity.
  - unfold Num.eqb, SFeqb, SFcompare.
    rewrite Z.compare_refl, Pos.compare_cont_refl. now destruct s.
Qed.

Lemma hundred_percent :
  Num.div (Num.of_Z 100) (Num.of_Z 100) = Num.of_Z 1.
Proof. vm_compute. reflexivity. Qed.

Lemma recomputeFinalPrice_no_discount (p : number) :
  recomputeFinalPrice p (Num.of_Z 0) = p.
Proof. reflexivity. Qed.

Lemma recomputeFinalPrice_full_discount (p : number) :
  Num.representable p = true -> Num.is_finite p = true ->
  recomputeFinalPrice p (Num.of_Z 100) = Num.of_Z 0.
Proof.
  intros Hv Hf. unfold recomputeFinalPrice.
  change (Num.gtb (Num.of_Z 100) (Num.of_Z 0)) with true. cbv iota.
  rewrite hundred_percent, mul_one by assumption.
  now apply sub_diag.
Qed.

(** Outside the finite values the rule of the hook yields NaN. *)
Lemma recomputeFinalPrice_infinite_price :
  recomputeFinalPrice (S754_infinity false) (Num.of_Z 100) = S754_nan.
Proof. vm_compute. reflexivity. Qed.

End Binary64.

(** C8. The [pre('save')] hook stores in [finalPrice] the value
    [discount > 0 ? price - price * (discount / 100) : price], a function
    of the stored price and discount only; and for every finite price
    [p >= 0]: the rule gives [p] at discount 0 and 0 at discount 100, and
    it gives 75 for price 100 at discount 25. *)
Theorem recomputeFinalPrice_rule (this : Product) (p : number) :
  Num.representable p = true ->
  Num.is_finite p = true ->
  Num.geb p (Num.of_Z 0) = true ->
  finalPrice (pre_save this) =
    (if Num.gtb (discount this) (Num.of_Z 0)
     then Num.sub (price this)
            (Num.mul (price this) (Num.div (discount this) (Num.of_Z 100)))
     else price this)
  /\ Num.eqb (recomputeFinalPrice p (Num.of_Z 0)) p = true
  /\ Num.eqb (recomputeFinalPrice p (Num.of_Z 100)) (Num.of_Z 0) = true
  /\ Num.eqb (recomputeFinalPrice (Num.of_Z 100) (Num.of_Z 25)) (Num.of_Z 75) = true.
Proof.
  intros Hv Hf _.
  split; [reflexivity |].
  split; [rewrite recomputeFinalPrice_no_discount; now apply eqb_refl |].
  split; [now rewrite recomputeFinalPrice_full_discount |].
  vm_compute. reflexivity.
Qed.

Lemma recomputeFinalPrice_rule_witness :
  Num.representable (Num.of_Z 40) = true
  /\ Num.is_finite (Num.of_Z 40) = true
  /\ Num.geb (Num.of_Z 40) (Num.of_Z 0) = true
  /\ Num.eqb (recomputeFinalPrice (Num.of_Z 40) (Num.of_Z 100)) (Num.of_Z 0) = true.
Proof.
  split; [reflexivity |]. split; [reflexivity |]. split; [reflexivity |].
  apply (recomputeFinalPrice_rule Sample.lamp (Num.of_Z 40)); reflexivity.
Defined.

(** ** Promises *)
Section Promises.
Context {A : Type}.
Implicit Types (ps : list (Promise A)) (p : Promise A).

Lemma earliest_rejection_None ps :
  earliest_rejection ps = None <-> Forall (fun p => ~ rejects p) ps.
Proof.
  induction ps as [| p ps IH]; cbn.
  - split; [constructor | reflexivity].
  - destruct (outcome p) as [v | e] eqn:Hp.
    + rewrite IH. split.
      * intros H. constructor; [| exact H]. intros [e He]. congruence.
      * intros H. now inversion H.
    + split.
      * destruct (earliest_rejection ps) as [[t' e'] |]; [| discriminate].
        destruct (settles_at p <=? t')%nat; discriminate.
      * intros H. inversion H as [| ? ? Hn _]. exfalso. apply Hn. now exists e.
Qed.

(** The reason [Promise.all] reports is the reason of a promise of the
    batch that rejected no later than every other rejected one. *)
Lemma earliest_rejection_Some ps t e :
  earliest_rejection ps = Some (t, e) ->
  exists i p, ps !! i = Some p /\ outcome p = Rejected e /\ settles_at p = t
    /\ forall j q, ps !! j = Some q -> rejects q -> (t <= settles_at q)%nat.
Proof.
  revert t e. induction ps as [| p ps IH]; cbn; intros t e H; [discriminate |].
  destruct (outcome p) as [v | e0] eqn:Hp.
  - destruct (IH _ _ H) as (i & q & Hi & Hq & Ht & Hmin).
    exists (S i), q. repeat split; try assumption.
    intros [| j] q' Hj Hr; cbn in Hj.
    + injection Hj as <-. destruct Hr as [e' He']. congruence.
    + eauto.
  - destruct (earliest_rejection ps) as [[t' e'] |] eqn:Hps.
    + destruct (IH _ _ eq_refl) as (i & q & Hi & Hq & Ht & Hmin).
      destruct (settles_at p <=? t')%nat eqn:Hle; injection H as <- <-.
      * apply Nat.leb_le in Hle.
        exists 0%nat, p. repeat split; try assumption.
        intros [| j] q' Hj Hr; cbn in Hj.
        -- injection Hj as <-. lia.
        -- specialize (Hmin _ _ Hj Hr). lia.
      * apply Nat.leb_gt in Hle.
        exists (S i), q. repeat split; try assumption.
        intros [| j] q' Hj Hr; cbn in Hj.
        -- injection Hj as <-. lia.
        -- eauto.
    + injection H as <- <-.
      exists 0%nat, p. repeat split; try assumption.
      intros [| j] q' Hj Hr; cbn in Hj.
      * injection Hj as <-. lia.
      * apply earliest_rejection_None in Hps.
        rewrite Forall_lookup in Hps. exfalso. exact (Hps _ _ Hj Hr).
Qed.

Lemma Promise_all_Rejected ps e :
  Promise_all ps = Rejected e ->
  exists i p, ps !! i = Some p /\ outcome p = Rejected e
    /\ forall j q, ps !! j = Some q -> rejects q -> (settles_at p <= settles_at q)%nat.
Proof.
  unfold Promise_all. destruct (earliest_rejection ps) as [[t e'] |] eqn:H; [| discriminate].
  intros [= <-]. destruct (earliest_rejection_Some _ _ _ H) as (i & p & Hi & Hp & Ht & Hmin).
  exists i, p. subst t. auto.
Qed.

Lemma Promise_all_rejects ps i p :
  ps !! i = Some p -> rejects p -> exists e, Promise_all ps = Rejected e.
Proof.
  intros Hi Hr. unfold Promise_all.
  destruct (earliest_rejection ps) as [[t e] |] eqn:H; [now exists e |].
  apply earliest_rejection_None in H. rewrite Forall_lookup in H.
  exfalso. exact (H _ _ Hi Hr).
Qed.

Lemma resolved_values_all ps :
  Forall (fun p => ~ rejects p) ps ->
  map outcome ps = map Resolved (resolved_values ps).
Proof.
  induction 1 as [| p ps Hp _ IH]; cbn; [reflexivity |].
  destruct (outcome p) as [v | e] eqn:E.
  - cbn. now rewrite IH.
  - exfalso. apply Hp. now exists e.
Qed.

Lemma Promise_all_Resolved ps vs :
  Promise_all ps = Resolved vs <->
  map outcome ps = map Resolved vs.
Proof.
  unfold Promise_all. split.
  - destruct (earliest_rejection ps) as [[t e] |] eqn:H; [discriminate |].
    intros [= <-]. apply resolved_values_all. now apply earliest_rejection_None.
  - intros Hm.
    assert (Hall : Forall (fun p => ~ rejects p) ps).
    { apply Forall_lookup. intros i p Hi [e He].
      assert (Hx : map outcome ps !! i = Some (Rejected e))
        by (rewrite list_lookup_fmap, Hi; cbn; now rewrite He).
      rewrite Hm, list_lookup_fmap in Hx.
      destruct (vs !! i); discriminate. }
    pose proof (resolved_values_all _ Hall) as Hr.
    apply earliest_rejection_None in Hall. rewrite Hall.
    f_equal. rewrite Hm in Hr.
    clear - Hr. revert Hr. generalize (resolved_values ps).
    induction vs as [| v vs IH]; intros [| w ws]; cbn; intros H;
      try discriminate; [reflexivity |].
    injection H as -> H. f_equal. now apply IH.
Qed.

End Promises.

(** ** Running the handlers *)

Ltac run_monad :=
  cbv [mbind mret M_bind M_ret bind ret throw record call await await_all
       findById save deleteOne updateAverageRating try_catch].

Lemma uploadToCloudinary_upload_stream (env : Env) (i : nat) (b : Buffer) :
  uploadToCloudinary env i b = upload_stream (cloudinary env) i b.
Proof.
  unfold uploadToCloudinary.
  destruct (upload_stream (cloudinary env) i b) as [t [v | e]]; reflexivity.
Qed.

Lemma deleteFromCloudinary_destroy (env : Env) (i : nat) (publicId : string) :
  deleteFromCloudinary env i publicId = destroy (cloudinary env) i publicId.
Proof.
  unfold deleteFromCloudinary.
  destruct (destroy (cloudinary env) i publicId) as [t [v | e]]; reflexivity.
Qed.

Lemma upload_all_run (env : Env) (fs : list File) (w : World) :
  upload_all env fs w =
    (match Promise_all (imap (fun i f => upload_stream (cloudinary env) i (buffer f)) fs) with
     | Resolved vs => Resolved (imap (uploaded_image env) vs)
     | Rejected e => Rejected e
     end,
     {| db := db w;
        calls := calls w ++ map (fun f => UploadStream (buffer f)) fs |}).
Proof.
  unfold upload_all. run_monad. cbn.
  erewrite imap_ext by (intros; apply uploadToCloudinary_upload_stream).
  destruct (Promise_all _); reflexivity.
Qed.

Lemma upload_rejects (env : Env) (fs : list File) (i : nat) (f : File) :
  fs !! i = Some f -> upload_ok env i f = false ->
  exists e, Promise_all (imap (fun i f => upload_stream (cloudinary env) i (buffer f)) fs)
            = Rejected e.
Proof.
  intros Hi Hbad.
  apply (Promise_all_rejects _ i (upload_stream (cloudinary env) i (buffer f))).
  - rewrite list_lookup_imap, Hi. reflexivity.
  - unfold upload_ok in Hbad. unfold rejects.
    destruct (outcome _) as [v | e]; [discriminate | now exists e].
Qed.

Lemma filter_is_upload_uploads (fs : list File) :
  List.filter is_upload (map (fun f => UploadStream (buffer f)) fs)
  = map (fun f => UploadStream (buffer f)) fs.
Proof. induction fs as [| f fs IH]; cbn; [reflexivity | now rewrite IH]. Qed.

Lemma uploads_are_not_writes (fs : list File) :
  Forall (fun ev => is_write ev = false) (map (fun f => UploadStream (buffer f)) fs).
Proof. induction fs; cbn; constructor; auto. Qed.

(** The handler past its guards, when a product is found and files are
    present. *)
Lemma uploadProductImages_run (env : Env) (req : Request)
      (products : gmap string Product) (product : Product) (fs : list File) :
  files req = Some fs -> fs <> [] ->
  products !! params_id req = Some product ->
  uploadProductImages env req (initial products) =
    match Promise_all (imap (fun i f => upload_stream (cloudinary env) i (buffer f)) fs) with
    | Resolved vs =>
        let saved := pre_save (set_images (images product ++ imap (uploaded_image env) vs) product) in
        ({| status_code := 200; json := Data saved |},
         {| db := <[product_id product := saved]> products;
            calls := [FindById (params_id req)]
                     ++ map (fun f => UploadStream (buffer f)) fs
                     ++ [Save (product_id product)] |})
    | Rejected e =>
        ({| status_code := 500; json := Failure (message e) |},
         {| db := products;
            calls := [FindById (params_id req)]
                     ++ map (fun f => UploadStream (buffer f)) fs |})
    end.
Proof.
  intros Hfs Hne Hp. unfold uploadProductImages. rewrite Hfs.
  destruct fs as [| f fs']; [congruence |].
  run_monad. cbn [initial db calls]. rewrite Hp.
  rewrite upload_all_run. cbn [db calls app].
  destruct (Promise_all _) as [vs | e]; reflexivity.
Qed.

(** C10. With [req.files] missing or empty the handler answers 400 without
    having called any collaborator: the product is not looked up, nothing
    is uploaded and nothing is written. *)
Theorem uploadProductImages_requires_files (env : Env) (req : Request)
        (products : gmap string Product) :
  files req = None \/ files req = Some [] ->
  uploadProductImages env req (initial products) =
    ({| status_code := 400; json := Failure "Please upload at least one image" |},
     initial products).
Proof.
  intros [H | H]; unfold uploadProductImages; rewrite H; reflexivity.
Qed.

Lemma uploadProductImages_requires_files_witness :
  files Sample.bare = None
  /\ uploadProductImages (Sample.env [] []) Sample.bare (initial Sample.catalog) =
       ({| status_code := 400; json := Failure "Please upload at least one image" |},
        initial Sample.catalog).
Proof.
  split; [reflexivity |].
  apply (uploadProductImages_requires_files (Sample.env [] []) Sample.bare Sample.catalog).
  left. reflexivity.
Defined.

(** C1. When one of the uploads of a request that carries files fails,
    the handler answers with a failure (500 when the product exists; when
    it does not, 404 for an id that can be cast and 500 for one that
    cannot), the products collection is left as it was, and no write is
    issued to it: none of the uploaded images is appended. *)
Theorem uploadProductImages_failure_persists_nothing (env : Env) (req : Request)
        (products : gmap string Product) (fs : list File) (i : nat) (f : File) :
  files req = Some fs ->
  fs !! i = Some f ->
  upload_ok env i f = false ->
  let run := uploadProductImages env req (initial products) in
  status_code run.1 = match products !! params_id req with
                      | Some _ => 500%nat
                      | None => if is_ObjectId (params_id req) then 404%nat else 500%nat
                      end
  /\ (exists msg, json run.1 = Failure msg)
  /\ db run.2 = products
  /\ persisted_images run.2 (params_id req) = images <$> products !! params_id req
  /\ Forall (fun ev => is_write ev = false) (calls run.2).
Proof.
  intros Hfs Hi Hbad.
  assert (Hne : fs <> []) by (intros ->; discriminate).
  destruct (products !! params_id req) as [product |] eqn:Hp.
  - cbv zeta. rewrite (uploadProductImages_run env req products product fs Hfs Hne Hp).
    destruct (upload_rejects env fs i f Hi Hbad) as [e ->]. cbn [fst snd status_code json db calls].
    unfold persisted_images. cbn [db]. rewrite Hp.
    repeat split; eauto.
    constructor; [reflexivity | apply uploads_are_not_writes].
  - cbv zeta. unfold uploadProductImages. rewrite Hfs.
    destruct fs as [| f0 fs']; [congruence |].
    run_monad. cbn [initial db calls]. rewrite Hp.
    destruct (is_ObjectId (params_id req)); cbn;
      unfold persisted_images; cbn; rewrite Hp; repeat split; eauto.
Qed.

Lemma uploadProductImages_failure_persists_nothing_witness :
  let req := Sample.with_files [Sample.file1; Sample.file2; Sample.file3] Sample.bare in
  let run := uploadProductImages (Sample.env [1%nat] []) req (initial Sample.catalog) in
  upload_ok (Sample.env [1%nat] []) 1 Sample.file2 = false
  /\ status_code run.1 = 500%nat
  /\ db run.2 = Sample.catalog.
Proof.
  cbv zeta. split; [reflexivity |].
  pose proof (uploadProductImages_failure_persists_nothing
                (Sample.env [1%nat] [])
                (Sample.with_files [Sample.file1; Sample.file2; Sample.file3] Sample.bare)
                Sample.catalog [Sample.file1; Sample.file2; Sample.file3] 1 Sample.file2
                eq_refl eq_refl eq_refl) as (H1 & _ & H2 & _).
  split; [exact H1 | exact H2].
Defined.

(** C2, as the code has it. When a product is found and one of the uploads
    fails, an upload has been issued for every file of the request, in
    order, and the answer is a 500 whose only content is the message of the
    upload that rejected first; the answer says nothing else about the
    batch. *)
Theorem uploadProductImages_failure_reports_first_rejection (env : Env) (req : Request)
        (products : gmap string Product) (product : Product) (fs : list File) :
  files req = Some fs ->
  products !! params_id req = Some product ->
  (exists i f, fs !! i = Some f /\ upload_ok env i f = false) ->
  let run := uploadProductImages env req (initial products) in
  List.filter is_upload (calls run.2) = map (fun f => UploadStream (buffer f)) fs
  /\ exists i f e,
       fs !! i = Some f
       /\ outcome (upload_stream (cloudinary env) i (buffer f)) = Rejected e
       /\ (forall j g, fs !! j = Some g -> upload_ok env j g = false ->
             (settles_at (upload_stream (cloudinary env) i (buffer f))
              <= settles_at (upload_stream (cloudinary env) j (buffer g)))%nat)
       /\ run.1 = {| status_code := 500; json := Failure (message e) |}.
Proof.
  intros Hfs Hp (i & f & Hi & Hbad).
  assert (Hne : fs <> []) by (intros ->; discriminate).
  cbv zeta. rewrite (uploadProductImages_run env req products product fs Hfs Hne Hp).
  destruct (upload_rejects env fs i f Hi Hbad) as [e He]. rewrite He.
  cbn [fst snd calls]. split.
  - cbn. apply filter_is_upload_uploads.
  - apply Promise_all_Rejected in He as (k & p & Hk & Hpe & Hmin).
    rewrite list_lookup_imap in Hk.
    destruct (fs !! k) as [g |] eqn:Hg; [| discriminate].
    cbn in Hk. injection Hk as <-.
    exists k, g, e. repeat split; try assumption.
    intros j h Hj Hjbad. apply (Hmin j).
    + rewrite list_lookup_imap, Hj. reflexivity.
    + unfold upload_ok in Hjbad. unfold rejects.
      destruct (outcome (upload_stream (cloudinary env) j (buffer h))) as [v | e'];
        [discriminate | now exists e'].
Qed.

Lemma uploadProductImages_failure_reports_first_rejection_witness :
  let env := Sample.env [1%nat] [] in
  let req := Sample.with_files [Sample.file1; Sample.file2; Sample.file3] Sample.bare in
  let run := uploadProductImages env req (initial Sample.catalog) in
  upload_ok env 1 Sample.file2 = false
  /\ List.filter is_upload (calls run.2)
     = [UploadStream [Byte.x01]; UploadStream [Byte.x02]; UploadStream [Byte.x03]].
Proof.
  cbv zeta. split; [reflexivity |].
  refine (proj1 (uploadProductImages_failure_reports_first_rejection
                   (Sample.env [1%nat] [])
                   (Sample.with_files [Sample.file1; Sample.file2; Sample.file3] Sample.bare)
                   Sample.catalog Sample.lamp
                   [Sample.file1; Sample.file2; Sample.file3]
                   eq_refl eq_refl _)).
  exists 1%nat, Sample.file2. split; reflexivity.
Defined.

(** C2, as stated, fails: no reading of the answer tells which files were
    uploaded and which were not. Of three files, the answer is the same
    when only the second upload fails and when the second and the third
    fail. *)
Lemma uploadProductImages_response_hides_outcomes :
  ~ exists decode : Response -> list bool,
      forall (env : Env) (req : Request) (products : gmap string Product) (fs : list File),
        files req = Some fs ->
        (exists i f, fs !! i = Some f /\ upload_ok env i f = false) ->
        decode (uploadProductImages env req (initial products)).1
        = imap (upload_ok env) fs.
Proof.
  intros [decode H].
  pose (fs := [Sample.file1; Sample.file2; Sample.file3]).
  pose (req := Sample.with_files fs Sample.bare).
  assert (Hbad1 : exists i f, fs !! i = Some f /\ upload_ok (Sample.env [1%nat] []) i f = false)
    by (exists 1%nat, Sample.file2; split; reflexivity).
  assert (Hbad2 : exists i f, fs !! i = Some f /\ upload_ok (Sample.env [1%nat; 2%nat] []) i f = false)
    by (exists 1%nat, Sample.file2; split; reflexivity).
  pose proof (H (Sample.env [1%nat] []) req Sample.catalog fs eq_refl Hbad1) as H1.
  pose proof (H (Sample.env [1%nat; 2%nat] []) req Sample.catalog fs eq_refl Hbad2) as H2.
  assert (Hsame : (uploadProductImages (Sample.env [1%nat] []) req (initial Sample.catalog)).1
                  = (uploadProductImages (Sample.env [1%nat; 2%nat] []) req (initial Sample.catalog)).1)
    by (vm_compute; reflexivity).
  rewrite Hsame, H2 in H1. vm_compute in H1. discriminate H1.
Qed.

(** C5, as the code has it. When no product is stored under the id of
    the request, [deleteProductImage] answers 404 if the id can be cast to
    an ObjectId, and 500 with the message of the cast error if it cannot;
    it answers 404 when the product has no image with the given id; and
    when the deletion of the asset is rejected by the store, it answers 500
    with the message of the store, the image entry stays in the stored
    product and the product is not saved, so that the request can be
    repeated. *)
Theorem deleteProductImage_failures (env : Env) (req : Request)
        (products : gmap string Product) :
  let run := deleteProductImage env req (initial products) in
  (products !! params_id req = None ->
     run = (if is_ObjectId (params_id req)
            then not_found "Product not found"
            else {| status_code := 500; json := Failure (message cast_error) |},
            {| db := products; calls := [FindById (params_id req)] |}))
  /\ (forall product,
        products !! params_id req = Some product ->
        List.find (has_id (params_imageId req)) (images product) = None ->
        run = (not_found "Image not found",
               {| db := products; calls := [FindById (params_id req)] |}))
  /\ (forall product image publicId e,
        products !! params_id req = Some product ->
        List.find (has_id (params_imageId req)) (images product) = Some image ->
        truthy (public_id image) = Some publicId ->
        outcome (destroy (cloudinary env) 0 publicId) = Rejected e ->
        run = ({| status_code := 500; json := Failure (message e) |},
               {| db := products;
                  calls := [FindById (params_id req); Destroy publicId] |})
        /\ persisted_images run.2 (params_id req) = Some (images product)
        /\ In image (images product)).
Proof.
  cbv zeta. unfold deleteProductImage. run_monad. cbn [initial db calls app].
  split; [| split].
  - intros ->. destruct (is_ObjectId (params_id req)); reflexivity.
  - intros product -> ->. reflexivity.
  - intros product image publicId e Hp Hfind Hpid He.
    rewrite Hp, Hfind, Hpid.
    rewrite deleteFromCloudinary_destroy, He. cbn.
    unfold persisted_images. cbn. rewrite Hp.
    repeat split. apply find_some in Hfind. tauto.
Qed.

Lemma deleteProductImage_failures_witness :
  let env := Sample.env [] ["products/b"] in
  let req := Sample.with_imageId "B" Sample.bare in
  let run := deleteProductImage env req (initial Sample.catalog) in
  outcome (destroy (cloudinary env) 0 "products/b") = Rejected {| message := "Destroy failed" |}
  /\ run = ({| status_code := 500; json := Failure "Destroy failed" |},
            {| db := Sample.catalog; calls := [FindById "64f1a2b3c4d5e6f708192a01"; Destroy "products/b"] |}).
Proof.
  cbv zeta. split; [reflexivity |].
  pose proof (deleteProductImage_failures (Sample.env [] ["products/b"])
                (Sample.with_imageId "B" Sample.bare) Sample.catalog) as (_ & _ & H).
  exact (proj1 (H Sample.lamp Sample.imgB "products/b" {| message := "Destroy failed" |}
                  eq_refl eq_refl eq_refl eq_refl)).
Defined.

(** C5, the claim as stated fails. No product is stored under the id
    [lamp], which is not an ObjectId: the query fails on the cast and the
    answer is the 500 of the catch block with the message of that error,
    not the 404 of a product that does not exist. *)
Lemma deleteProductImage_unknown_id_answered_500 :
  let req := Sample.with_imageId "B" Sample.unknown_lamp in
  let run := deleteProductImage (Sample.env [] []) req (initial Sample.catalog) in
  Sample.catalog !! params_id req = None
  /\ run = ({| status_code := 500; json := Failure "Cast to ObjectId failed" |},
            {| db := Sample.catalog; calls := [FindById "lamp"] |})
  /\ run.1 <> not_found "Product not found".
Proof.
  cbv zeta. split; [reflexivity |]. split; [reflexivity | discriminate].
Qed.

(** *** The cascade of [deleteProduct] *)

Lemma asset_ids_cons (image : Image) (rest : list Image) :
  asset_ids (image :: rest)
  = match truthy (public_id image) with
    | Some publicId => publicId :: asset_ids rest
    | None => asset_ids rest
    end.
Proof. reflexivity. Qed.

Lemma delete_images_ok (env : Env) (images : list Image) :
  forall (i0 : nat) (w : World),
    (forall k image publicId,
        images !! k = Some image -> truthy (public_id image) = Some publicId ->
        destroy_ok env (i0 + k) publicId = true) ->
    delete_images env i0 images w
    = (Resolved tt, {| db := db w; calls := calls w ++ map Destroy (asset_ids images) |}).
Proof.
  induction images as [| image rest IH]; intros i0 w Hok.
  - cbn. rewrite app_nil_r. now destruct w.
  - cbn [delete_images]. rewrite asset_ids_cons.
    assert (Hrest : forall k image' publicId,
               rest !! k = Some image' -> truthy (public_id image') = Some publicId ->
               destroy_ok env (S i0 + k) publicId = true).
    { intros k image' publicId Hk Ht.
      replace (S i0 + k)%nat with (i0 + S k)%nat by lia. now apply (Hok (S k) image'). }
    destruct (truthy (public_id image)) as [publicId |] eqn:Ht.
    + specialize (Hok 0%nat image publicId eq_refl Ht).
      rewrite Nat.add_0_r in Hok. unfold destroy_ok in Hok.
      run_monad. rewrite deleteFromCloudinary_destroy. cbn [db calls].
      destruct (outcome (destroy (cloudinary env) i0 publicId)) as [v | e]; [| discriminate].
      rewrite (IH (S i0) _ Hrest). cbn [db calls]. now rewrite <- app_assoc.
    + apply (IH (S i0) w Hrest).
Qed.

Lemma delete_images_fail (env : Env) (images : list Image) :
  forall (i0 : nat) (w : World) (k : nat) (image : Image) (publicId : string),
    images !! k = Some image -> truthy (public_id image) = Some publicId ->
    destroy_ok env (i0 + k) publicId = false ->
    exists n image' publicId' e,
      (n <= k)%nat /\ images !! n = Some image'
      /\ truthy (public_id image') = Some publicId'
      /\ outcome (destroy (cloudinary env) (i0 + n) publicId') = Rejected e
      /\ (forall j img p,
             (j < n)%nat -> images !! j = Some img -> truthy (public_id img) = Some p ->
             destroy_ok env (i0 + j) p = true)
      /\ delete_images env i0 images w
         = (Rejected e,
            {| db := db w;
               calls := calls w ++ map Destroy (asset_ids (take (S n) images)) |}).
Proof.
  induction images as [| image0 rest IH]; intros i0 w k image publicId Hk Ht Hbad;
    [discriminate |].
  cbn [delete_images].
  destruct (truthy (public_id image0)) as [publicId0 |] eqn:Ht0.
  - destruct (outcome (destroy (cloudinary env) i0 publicId0)) as [v | e] eqn:Ho.
    + destruct k as [| k].
      { cbn in Hk. injection Hk as <-. rewrite Ht0 in Ht. injection Ht as <-.
        rewrite Nat.add_0_r in Hbad. unfold destroy_ok in Hbad. now rewrite Ho in Hbad. }
      cbn in Hk. replace (i0 + S k)%nat with (S i0 + k)%nat in Hbad by lia.
      destruct (IH (S i0) {| db := db w; calls := calls w ++ [Destroy publicId0] |}
                  k image publicId Hk Ht Hbad)
        as (n & image' & publicId' & e & Hn & Hl & Ht' & He & Hfirst & Hrun).
      exists (S n), image', publicId', e.
      replace (i0 + S n)%nat with (S i0 + n)%nat by lia.
      split; [lia |]. split; [exact Hl |]. split; [exact Ht' |]. split; [exact He |].
      split.
      { intros [| j] img p Hj Himg Hp; cbn in Himg.
        - injection Himg as <-. rewrite Ht0 in Hp. injection Hp as <-.
          rewrite Nat.add_0_r. unfold destroy_ok. now rewrite Ho.
        - replace (i0 + S j)%nat with (S i0 + j)%nat by lia.
          apply (Hfirst j img p); [lia | exact Himg | exact Hp]. }
      run_monad. rewrite deleteFromCloudinary_destroy, Ho. cbn [db calls].
      rewrite Hrun. cbn [db calls]. rewrite <- app_assoc.
      cbn [take]. rewrite asset_ids_cons, Ht0. reflexivity.
    + exists 0%nat, image0, publicId0, e. rewrite Nat.add_0_r.
      split; [lia |]. split; [reflexivity |]. split; [exact Ht0 |]. split; [exact Ho |].
      split; [intros j img p Hj; lia |].
      run_monad. rewrite deleteFromCloudinary_destroy, Ho. cbn [db calls].
      cbn [take]. rewrite asset_ids_cons, Ht0. reflexivity.
  - destruct k as [| k].
    { cbn in Hk. injection Hk as <-. congruence. }
    cbn in Hk. replace (i0 + S k)%nat with (S i0 + k)%nat in Hbad by lia.
    destruct (IH (S i0) w k image publicId Hk Ht Hbad)
      as (n & image' & publicId' & e & Hn & Hl & Ht' & He & Hfirst & Hrun).
    exists (S n), image', publicId', e.
    replace (i0 + S n)%nat with (S i0 + n)%nat by lia.
    split; [lia |]. split; [exact Hl |]. split; [exact Ht' |]. split; [exact He |].
    split.
    { intros [| j] img p Hj Himg Hp; cbn in Himg.
      - injection Himg as <-. congruence.
      - replace (i0 + S j)%nat with (S i0 + j)%nat by lia.
        apply (Hfirst j img p); [lia | exact Himg | exact Hp]. }
    rewrite Hrun. cbn [take]. rewrite asset_ids_cons, Ht0. reflexivity.
Qed.

Lemma destroys_are_not_writes (ids : list string) :
  Forall (fun ev => is_write ev = false) (map Destroy ids).
Proof. induction ids; cbn; constructor; auto. Qed.

Lemma filter_is_destroy_destroys (ids : list string) :
  List.filter is_destroy (map Destroy ids) = map Destroy ids.
Proof. induction ids as [| x ids IH]; cbn; [reflexivity | now rewrite IH]. Qed.

(** C4, as stated, fails. The deletion of the second of the three images
    of the lamp is rejected by the store: the handler answers 500, the
    third deletion is never issued and the lamp is still in the
    collection. *)
Lemma deleteProduct_keeps_product_when_deletion_fails :
  let env := Sample.env [] ["products/b"] in
  let run := deleteProduct env Sample.bare (initial Sample.catalog) in
  destroy_ok env 1 "products/b" = false
  /\ run.1 = {| status_code := 500; json := Failure "Destroy failed" |}
  /\ db run.2 !! "64f1a2b3c4d5e6f708192a01" = Some Sample.lamp
  /\ calls run.2 = [FindById "64f1a2b3c4d5e6f708192a01"; Destroy "products/a"; Destroy "products/b"].
Proof. vm_compute. repeat split; reflexivity. Qed.

(** C4, as the code has it. The product record is removed when every
    deletion of an image asset resolves, after a deletion was sent for
    every asset. When one of them is rejected, the handler stops at the
    first rejected deletion: the deletions sent are those of the images up
    to that one and no later one, the answer is 500 with the message of
    that rejection, and the collection is left as it was: the product
    record is not removed. *)
Theorem deleteProduct_removes_after_all_deletions (env : Env) (req : Request)
        (products : gmap string Product) (product : Product) :
  products !! params_id req = Some product ->
  let run := deleteProduct env req (initial products) in
  ((forall k image publicId,
       images product !! k = Some image -> truthy (public_id image) = Some publicId ->
       destroy_ok env k publicId = true) ->
   run.1 = {| status_code := 200; json := Message "Product deleted successfully" |}
   /\ db run.2 = delete (product_id product) products
   /\ calls run.2 = [FindById (params_id req)]
                    ++ map Destroy (asset_ids (images product))
                    ++ [DeleteOne (product_id product)])
  /\ (forall k image publicId,
        images product !! k = Some image -> truthy (public_id image) = Some publicId ->
        destroy_ok env k publicId = false ->
        exists n first firstId e,
          (n <= k)%nat
          /\ images product !! n = Some first
          /\ truthy (public_id first) = Some firstId
          /\ outcome (destroy (cloudinary env) n firstId) = Rejected e
          /\ (forall j img p,
                 (j < n)%nat -> images product !! j = Some img ->
                 truthy (public_id img) = Some p -> destroy_ok env j p = true)
          /\ run.1 = {| status_code := 500; json := Failure (message e) |}
          /\ db run.2 = products
          /\ calls run.2 = [FindById (params_id req)]
                           ++ map Destroy (asset_ids (take (S n) (images product)))
          /\ Forall (fun ev => is_write ev = false) (calls run.2)).
Proof.
  intros Hp. cbv zeta. unfold deleteProduct.
  cbv [mbind mret M_bind M_ret bind ret findById deleteOne try_catch].
  cbn [initial db calls app]. rewrite Hp. split.
  - intros Hok. rewrite (delete_images_ok env (images product) 0 _ Hok).
    cbn. split; [reflexivity |]. split; reflexivity.
  - intros k image publicId Hk Ht Hbad.
    destruct (delete_images_fail env (images product) 0
                {| db := products; calls := [FindById (params_id req)] |}
                k image publicId Hk Ht Hbad)
      as (n & first & firstId & e & Hn & Hl & Ht' & He & Hfirst & Hrun).
    rewrite Hrun. cbn [fst snd status_code json db calls].
    exists n, first, firstId, e.
    split; [exact Hn |]. split; [exact Hl |]. split; [exact Ht' |]. split; [exact He |].
    split; [exact Hfirst |]. split; [reflexivity |]. split; [reflexivity |].
    split; [reflexivity |].
    constructor; [reflexivity | apply destroys_are_not_writes].
Qed.

Lemma deleteProduct_removes_after_all_deletions_witness :
  let env := Sample.env [] ["products/b"] in
  let run := deleteProduct env Sample.bare (initial Sample.catalog) in
  Sample.catalog !! "64f1a2b3c4d5e6f708192a01" = Some Sample.lamp
  /\ destroy_ok env 1 "products/b" = false
  /\ status_code run.1 = 500%nat
  /\ db run.2 = Sample.catalog.
Proof.
  cbv zeta. split; [reflexivity |]. split; [reflexivity |].
  pose proof (deleteProduct_removes_after_all_deletions (Sample.env [] ["products/b"])
                Sample.bare Sample.catalog Sample.lamp eq_refl) as [_ H].
  destruct (H 1%nat Sample.imgB "products/b" eq_refl eq_refl eq_refl)
    as (n & first & firstId & e & _ & _ & _ & _ & _ & H1 & H2 & _).
  split; [rewrite H1; reflexivity | exact H2].
Defined.

(** *** The two phases of [updateProductImages] *)

Lemma delete_call_events (env : Env) (images : list Image) (i : nat) (imageId : string) :
  (delete_call env images i imageId).1
  = match asset_of images imageId with
    | Some publicId => [Destroy publicId]
    | None => []
    end.
Proof.
  unfold delete_call, asset_of.
  destruct (List.find _ images) as [image |]; [| reflexivity].
  destruct (truthy (public_id image)); reflexivity.
Qed.

Lemma delete_call_rejects (env : Env) (images : list Image) (i : nat) (imageId : string) :
  rejects (delete_call env images i imageId).2
  <-> exists publicId, asset_of images imageId = Some publicId
                       /\ destroy_ok env i publicId = false.
Proof.
  unfold delete_call, asset_of, rejects, destroy_ok.
  destruct (List.find _ images) as [image |]; cbn.
  - destruct (truthy (public_id image)) as [publicId |]; cbn.
    + rewrite deleteFromCloudinary_destroy.
      destruct (outcome (destroy (cloudinary env) i publicId)) as [v | e] eqn:Ho; split.
      * intros [e He]. discriminate.
      * intros (p & Heq & H). injection Heq as <-. rewrite Ho in H. discriminate.
      * intros _. exists publicId. rewrite Ho. now split.
      * intros _. now exists e.
    + split; [intros [e He]; discriminate | intros (p & H & _); discriminate].
  - split; [intros [e He]; discriminate | intros (p & H & _); discriminate].
Qed.

Lemma delete_events (env : Env) (images : list Image) (ids : list string) :
  forall i0,
    concat (map fst (imap (fun i => delete_call env images (i0 + i)) ids))
    = map Destroy (omap (asset_of images) ids).
Proof.
  induction ids as [| id ids IH]; intros i0; [reflexivity |].
  cbn [imap map concat]. rewrite Nat.add_0_r, delete_call_events.
  erewrite imap_ext; [rewrite (IH (S i0)) |].
  - cbn. destruct (asset_of images id); reflexivity.
  - intros i x _. cbn. f_equal. lia.
Qed.

Lemma delete_all_run (env : Env) (ids : list string) (images : list Image) (w : World) :
  delete_all env ids images w =
    (match Promise_all (map snd (imap (delete_call env images) ids)) with
     | Resolved _ =>
         Resolved (List.filter (fun img => negb (includes ids (image_id img))) images)
     | Rejected e => Rejected e
     end,
     {| db := db w;
        calls := calls w ++ map Destroy (omap (asset_of images) ids) |}).
Proof.
  unfold delete_all. run_monad. cbn [db calls].
  rewrite <- (delete_events env images ids 0). cbn [Nat.add].
  destruct (Promise_all _); reflexivity.
Qed.

Lemma deletions_reject (env : Env) (images : list Image) (ids : list string)
      (i : nat) (imageId publicId : string) :
  ids !! i = Some imageId -> asset_of images imageId = Some publicId ->
  destroy_ok env i publicId = false ->
  exists e, Promise_all (map snd (imap (delete_call env images) ids)) = Rejected e.
Proof.
  intros Hi Ha Hbad.
  apply (Promise_all_rejects _ i (delete_call env images i imageId).2).
  - rewrite list_lookup_fmap, list_lookup_imap, Hi. reflexivity.
  - apply delete_call_rejects. eauto.
Qed.

Lemma deletions_resolve (env : Env) (images : list Image) (ids : list string) :
  (forall i imageId publicId,
      ids !! i = Some imageId -> asset_of images imageId = Some publicId ->
      destroy_ok env i publicId = true) ->
  exists vs, Promise_all (map snd (imap (delete_call env images) ids)) = Resolved vs.
Proof.
  intros Hok. unfold Promise_all.
  destruct (earliest_rejection _) as [[t e] |] eqn:H; [| eauto].
  apply earliest_rejection_Some in H as (i & p & Hi & Hp & _).
  rewrite list_lookup_fmap, list_lookup_imap in Hi.
  destruct (ids !! i) as [imageId |] eqn:Hid; [| discriminate].
  cbn in Hi. injection Hi as <-.
  assert (Hr : rejects (delete_call env images i imageId).2) by now exists e.
  apply delete_call_rejects in Hr as (publicId & Ha & Hbad).
  rewrite (Hok i imageId publicId Hid Ha) in Hbad. discriminate.
Qed.

Lemma filter_includes_nil (images : list Image) :
  List.filter (fun img => negb (includes [] (image_id img))) images = images.
Proof.
  induction images as [| x l IH]; [reflexivity |].
  change (x :: List.filter (fun img => negb (includes [] (image_id img))) l = x :: l).
  now rewrite IH.
Qed.

(** The handler once the product is found. *)
Lemma updateProductImages_run (env : Env) (req : Request)
      (products : gmap string Product) (product : Product) :
  products !! params_id req = Some product ->
  let ids := default [] (body_imagesToDelete req) in
  let fs := default [] (files req) in
  let destroys := map Destroy (omap (asset_of (images product)) ids) in
  let uploads := map (fun f => UploadStream (buffer f)) fs in
  updateProductImages env req (initial products) =
    match Promise_all (map snd (imap (delete_call env (images product)) ids)) with
    | Rejected e =>
        ({| status_code := 500; json := Failure (message e) |},
         {| db := products; calls := [FindById (params_id req)] ++ destroys |})
    | Resolved _ =>
        match Promise_all (imap (fun i f => upload_stream (cloudinary env) i (buffer f)) fs) with
        | Rejected e =>
            ({| status_code := 500; json := Failure (message e) |},
             {| db := products;
                calls := [FindById (params_id req)] ++ destroys ++ uploads |})
        | Resolved vs =>
            let kept := List.filter (fun img => negb (includes ids (image_id img)))
                                    (images product) in
            let saved := pre_save (set_images (kept ++ imap (uploaded_image env) vs) product) in
            ({| status_code := 200; json := Data saved |},
             {| db := <[product_id product := saved]> products;
                calls := [FindById (params_id req)] ++ destroys ++ uploads
                         ++ [Save (product_id product)] |})
        end
    end.
Proof.
  intros Hp. cbv zeta.
  assert (Hdel : forall w,
    match body_imagesToDelete req with
    | None | Some [] => mret (images product)
    | Some imagesToDelete => delete_all env imagesToDelete (images product)
    end w = delete_all env (default [] (body_imagesToDelete req)) (images product) w).
  { intros w. destruct (body_imagesToDelete req) as [[| id ids] |]; cbn [default];
      try reflexivity;
      rewrite delete_all_run; cbn; rewrite app_nil_r, filter_includes_nil; now destruct w. }
  assert (Hup : forall w,
    match files req with
    | None | Some [] => mret []
    | Some files => upload_all env files
    end w = upload_all env (default [] (files req)) w).
  { intros w. destruct (files req) as [[| f fs] |]; cbn [default];
      try reflexivity;
      rewrite upload_all_run; cbn; rewrite app_nil_r; now destruct w. }
  unfold updateProductImages.
  cbv [mbind M_bind bind try_catch findById]. cbn [initial db calls app].
  rewrite Hp, Hdel, delete_all_run. cbn [db calls].
  destruct (Promise_all (map snd _)) as [us | e]; [| reflexivity].
  rewrite Hup, upload_all_run. cbn [db calls].
  destruct (Promise_all (imap _ _)) as [vs | e]; [| now rewrite <- app_assoc].
  cbv [save mret M_ret ret]. cbn [db calls set_images product_id].
  now rewrite <- !app_assoc.
Qed.

Lemma filter_is_destroy_uploads (fs : list File) :
  List.filter is_destroy (map (fun f => UploadStream (buffer f)) fs) = [].
Proof. induction fs as [| f fs IH]; cbn; [reflexivity | exact IH]. Qed.

Lemma filter_is_upload_destroys (ids : list string) :
  List.filter is_upload (map Destroy ids) = [].
Proof. induction ids as [| x ids IH]; cbn; [reflexivity | exact IH]. Qed.

(** C3, as stated, fails. The request asks to delete the images A and B
    of the lamp and carries one new file; the store rejects the deletion of
    A, accepts the deletion of B and would accept the upload. The handler
    answers 500, uploads nothing, and the stored image list still has B
    and lacks the new image. *)
Lemma updateProductImages_aborts_when_deletion_fails :
  let env := Sample.env [] ["products/a"] in
  let req := Sample.with_files [Sample.file1]
               (Sample.with_imagesToDelete ["A"; "B"] Sample.bare) in
  let run := updateProductImages env req (initial Sample.catalog) in
  destroy_ok env 0 "products/a" = false
  /\ destroy_ok env 1 "products/b" = true
  /\ upload_ok env 0 Sample.file1 = true
  /\ run.1 = {| status_code := 500; json := Failure "Destroy failed" |}
  /\ calls run.2 = [FindById "64f1a2b3c4d5e6f708192a01"; Destroy "products/a"; Destroy "products/b"]
  /\ persisted_images run.2 "64f1a2b3c4d5e6f708192a01" = Some [Sample.imgA; Sample.imgB; Sample.imgC]
  /\ persisted_images run.2 "64f1a2b3c4d5e6f708192a01"
     <> Some [Sample.imgA; Sample.imgC; uploaded_image env 0 (Sample.uploaded 0)].
Proof. vm_compute. repeat split; try reflexivity. discriminate. Qed.

(** C3, as the code has it. For a stored product: the deletion of every
    listed image that has an asset is issued, whatever the others do; when
    one of these deletions is rejected the handler answers 500, no upload
    is issued, nothing is written and the collection is as before; when
    every deletion and every upload resolves, the handler answers 200 and
    the stored image list is the former one without the listed ids,
    followed by the new images in the order of the files. *)
Theorem updateProductImages_all_or_nothing (env : Env) (req : Request)
        (products : gmap string Product) (product : Product) :
  products !! params_id req = Some product ->
  let ids := default [] (body_imagesToDelete req) in
  let fs := default [] (files req) in
  let run := updateProductImages env req (initial products) in
  List.filter is_destroy (calls run.2)
  = map Destroy (omap (asset_of (images product)) ids)
  /\ (forall i imageId publicId,
        ids !! i = Some imageId ->
        asset_of (images product) imageId = Some publicId ->
        destroy_ok env i publicId = false ->
        status_code run.1 = 500%nat
        /\ (exists msg, json run.1 = Failure msg)
        /\ db run.2 = products
        /\ List.filter is_upload (calls run.2) = []
        /\ Forall (fun ev => is_write ev = false) (calls run.2))
  /\ (forall vs,
        (forall i imageId publicId,
            ids !! i = Some imageId ->
            asset_of (images product) imageId = Some publicId ->
            destroy_ok env i publicId = true) ->
        imap (fun i f => outcome (upload_stream (cloudinary env) i (buffer f))) fs
        = map Resolved vs ->
        exists saved,
          run.1 = {| status_code := 200; json := Data saved |}
          /\ db run.2 = <[product_id product := saved]> products
          /\ images saved
             = List.filter (fun img => negb (includes ids (image_id img))) (images product)
               ++ imap (uploaded_image env) vs).
Proof.
  intros Hp. cbv zeta.
  rewrite (updateProductImages_run env req products product Hp). cbv zeta.
  set (ids := default [] (body_imagesToDelete req)).
  set (fs := default [] (files req)).
  split; [| split].
  - destruct (Promise_all (map snd _)) as [us | e]; cbn [snd calls].
    + destruct (Promise_all (imap _ _)) as [vs | e]; cbn [snd calls];
        rewrite !List.filter_app, filter_is_destroy_destroys, filter_is_destroy_uploads;
        cbn; now rewrite app_nil_r.
    + rewrite List.filter_app, filter_is_destroy_destroys. reflexivity.
  - intros i imageId publicId Hi Ha Hbad.
    destruct (deletions_reject env (images product) ids i imageId publicId Hi Ha Hbad)
      as [e ->].
    cbn [fst snd status_code json db calls].
    repeat split; eauto.
    + rewrite List.filter_app, filter_is_upload_destroys. reflexivity.
    + apply Forall_app. split; [repeat constructor | apply destroys_are_not_writes].
  - intros vs Hok Hup.
    destruct (deletions_resolve env (images product) ids Hok) as [us ->].
    assert (Hall : Promise_all (imap (fun i f => upload_stream (cloudinary env) i (buffer f)) fs)
                   = Resolved vs).
    { apply Promise_all_Resolved. rewrite <- Hup.
      apply list_eq. intros j. rewrite list_lookup_fmap, !list_lookup_imap.
      destruct (fs !! j); reflexivity. }
    rewrite Hall. cbn [fst snd db calls].
    eexists. split; [reflexivity |]. split; reflexivity.
Qed.

Lemma updateProductImages_all_or_nothing_witness :
  let env := Sample.env [] ["products/a"] in
  let req := Sample.with_files [Sample.file1]
               (Sample.with_imagesToDelete ["A"; "B"] Sample.bare) in
  let run := updateProductImages env req (initial Sample.catalog) in
  Sample.catalog !! params_id req = Some Sample.lamp
  /\ destroy_ok env 0 "products/a" = false
  /\ List.filter is_destroy (calls run.2) = [Destroy "products/a"; Destroy "products/b"]
  /\ status_code run.1 = 500%nat
  /\ db run.2 = Sample.catalog.
Proof.
  cbv zeta. split; [reflexivity |]. split; [reflexivity |].
  pose proof (updateProductImages_all_or_nothing (Sample.env [] ["products/a"])
                (Sample.with_files [Sample.file1]
                   (Sample.with_imagesToDelete ["A"; "B"] Sample.bare))
                Sample.catalog Sample.lamp eq_refl) as (H1 & H2 & _).
  split; [exact H1 |].
  destruct (H2 0%nat "A" "products/a" eq_refl eq_refl eq_refl) as (H3 & _ & H4 & _).
  split; [exact H3 | exact H4].
Defined.

(** ** Ratings *)

Lemma findIndex_from_found {A : Type} (f : A -> bool) (l : list A) :
  forall i, 0 <= findIndex_from f l i ->
    exists n x, findIndex_from f l i = i + Z.of_nat n
                /\ l !! n = Some x /\ f x = true
                /\ forall m y, (m < n)%nat -> l !! m = Some y -> f y = false.
Proof.
  induction l as [| x l IH]; intros i H; cbn in *; [lia |].
  destruct (f x) eqn:Hx.
  - exists 0%nat, x. repeat split; [lia | assumption | intros; lia].
  - destruct (IH _ H) as (n & y & Hn & Hl & Hy & Hmin).
    exists (S n), y. repeat split; [lia | assumption | assumption |].
    intros [| m] z Hm Hz; cbn in Hz; [congruence |].
    apply (Hmin m); [lia | assumption].
Qed.

Lemma findIndex_from_absent {A : Type} (f : A -> bool) (l : list A) :
  forall i, 0 <= i -> findIndex_from f l i < 0 -> Forall (fun x => f x = false) l.
Proof.
  induction l as [| x l IH]; intros i Hi H; cbn in *; [constructor |].
  destruct (f x) eqn:Hx; [lia |].
  constructor; [assumption |]. apply (IH (i + 1)); [lia | assumption].
Qed.

Section Counting.
Variable rater : string.


Lemma count_cons (r : Rating) (l : list Rating) :
  count_rated_by rater (r :: l)
  = ((if rated_by rater r then 1 else 0) + count_rated_by rater l)%nat.
Proof. unfold count_rated_by. cbn. now destruct (rated_by rater r). Qed.


Lemma count_zero_none (l : list Rating) :
  count_rated_by rater l = 0%nat -> Forall (fun r => rated_by rater r = false) l.
Proof.
  induction l as [| r l IH]; [constructor |].
  rewrite count_cons. destruct (rated_by rater r) eqn:Hr; [discriminate |].
  intros H. constructor; [assumption | now apply IH].
Qed.




End Counting.

Lemma rated_by_iff (rater : string) (r : Rating) :
  rated_by rater r = true <-> user r = rater.
Proof. unfold rated_by. apply String.eqb_eq. Qed.

(** The handler past its guards. *)
Lemma addProductRating_run (env : Env) (req : Request)
      (products : gmap string Product) (product : Product) :
  validation_errors req = [] ->
  products !! params_id req = Some product ->
  let idx := findIndex (rated_by (user_id req)) (ratings product) in
  let ratings' :=
    if 0 <=? idx
    then <[Z.to_nat idx := submitted_rating env req]> (ratings product)
    else ratings product ++ [submitted_rating env req] in
  let saved :=
    pre_save (set_averageRating (recomputeAverageRating ratings')
                (set_ratings ratings' product)) in
  addProductRating env req (initial products)
  = ({| status_code := 200; json := Data saved |},
     {| db := <[product_id product := saved]> products;
        calls := [FindById (params_id req); Save (product_id product)] |}).
Proof.
  intros Hv Hp. cbv zeta. unfold addProductRating. rewrite Hv.
  run_monad. cbn [initial db calls app]. rewrite Hp. reflexivity.
Qed.







(** ** The final price *)

(** What [save] writes is in step with the rule of the hook. *)
Lemma save_finalPrice_in_step (product : Product) (w : World) :
  db (save product w).2 !! product_id product = Some (pre_save product)
  /\ finalPrice (pre_save product)
     = recomputeFinalPrice (price (pre_save product)) (discount (pre_save product)).
Proof. split; [apply lookup_insert_eq | reflexivity]. Qed.

(** What the generic update writes: the paths of the body and nothing
    else; [finalPrice] is written only when the body carries it. *)
Lemma updateProduct_run (env : Env) (req : Request)
      (products : gmap string Product) (product : Product) :
  update_validators (body_update req) = true ->
  products !! params_id req = Some product ->
  updateProduct env req (initial products)
  = ({| status_code := 200; json := Data (apply_update (body_update req) product) |},
     {| db := <[params_id req := apply_update (body_update req) product]> products;
        calls := [FindByIdAndUpdate (params_id req)] |}).
Proof.
  intros Hv Hp. unfold updateProduct, findByIdAndUpdate. run_monad.
  cbn [initial db calls app]. rewrite Hv, Hp. reflexivity.
Qed.

(** C7, on the generic update. The lamp costs 100 with no discount and
    its stored final price is 100. A body that sets the price to 200 is
    answered 200 and leaves a stored product of price 200 whose final price
    is still 100, where the rule of the hook gives 200. *)
Theorem updateProduct_leaves_finalPrice_stale :
  let body := {| new_name := None; new_price := Some (Num.of_Z 200);
                 new_discount := None; new_finalPrice := None;
                 new_quantity := None |} in
  let run := updateProduct (Sample.env [] []) (Sample.with_update body Sample.bare)
               (initial Sample.catalog) in
  exists saved,
    run.1 = {| status_code := 200; json := Data saved |}
    /\ db run.2 !! "64f1a2b3c4d5e6f708192a01" = Some saved
    /\ price saved = Num.of_Z 200
    /\ discount saved = Num.of_Z 0
    /\ finalPrice saved = Num.of_Z 100
    /\ recomputeFinalPrice (price saved) (discount saved) = Num.of_Z 200
    /\ Num.eqb (finalPrice saved)
               (recomputeFinalPrice (price saved) (discount saved)) = false.
Proof.
  cbv zeta. eexists.
  rewrite (updateProduct_run (Sample.env [] [])
             (Sample.with_update
                {| new_name := None; new_price := Some (Num.of_Z 200);
                   new_discount := None; new_finalPrice := None;
                   new_quantity := None |} Sample.bare)
             Sample.catalog Sample.lamp eq_refl eq_refl).
  cbn [fst snd db]. split; [reflexivity |].
  split; [apply lookup_insert_eq |].
  repeat split; reflexivity.
Qed.

(** The same with the discount: a body that sets the discount to 50
    leaves the final price at 100, where the rule gives 50. *)
Lemma updateProduct_ignores_new_discount :
  let body := {| new_name := None; new_price := None;
                 new_discount := Some (Num.of_Z 50); new_finalPrice := None;
                 new_quantity := None |} in
  let run := updateProduct (Sample.env [] []) (Sample.with_update body Sample.bare)
               (initial Sample.catalog) in
  exists saved,
    db run.2 !! "64f1a2b3c4d5e6f708192a01" = Some saved
    /\ finalPrice saved = Num.of_Z 100
    /\ recomputeFinalPrice (price saved) (discount saved) = Num.of_Z 50.
Proof.
  cbv zeta. eexists.
  rewrite (updateProduct_run (Sample.env [] [])
             (Sample.with_update
                {| new_name := None; new_price := None;
                   new_discount := Some (Num.of_Z 50); new_finalPrice := None;
                   new_quantity := None |} Sample.bare)
             Sample.catalog Sample.lamp eq_refl eq_refl).
  cbn [snd db]. split; [apply lookup_insert_eq |].
  split; vm_compute; reflexivity.
Qed.

(** * Further properties of the controller *)

(** ** Successful uploads *)

Lemma uploads_resolve (env : Env) (fs : list File) :
  (forall i f, fs !! i = Some f -> upload_ok env i f = true) ->
  exists vs,
    Promise_all (imap (fun i f => upload_stream (cloudinary env) i (buffer f)) fs)
    = Resolved vs
    /\ length vs = length fs
    /\ forall i f, fs !! i = Some f ->
         exists v, vs !! i = Some v
                   /\ outcome (upload_stream (cloudinary env) i (buffer f)) = Resolved v.
Proof.
  intros Hok.
  set (ps := imap (fun i f => upload_stream (cloudinary env) i (buffer f)) fs).
  assert (Hall : Forall (fun p => ~ rejects p) ps).
  { apply Forall_lookup. intros i p Hi [e He]. subst ps.
    rewrite list_lookup_imap in Hi.
    destruct (fs !! i) as [f |] eqn:Hf; [| discriminate].
    cbn in Hi. injection Hi as <-.
    specialize (Hok i f Hf). unfold upload_ok in Hok. rewrite He in Hok. discriminate. }
  pose proof (resolved_values_all ps Hall) as Hvs.
  exists (resolved_values ps). split; [| split].
  - unfold Promise_all. apply earliest_rejection_None in Hall. now rewrite Hall.
  - apply (f_equal length) in Hvs. rewrite !length_map in Hvs.
    subst ps. now rewrite length_imap in Hvs.
  - intros i f Hf.
    assert (Hi : map outcome ps !! i
                 = Some (outcome (upload_stream (cloudinary env) i (buffer f)))).
    { subst ps. rewrite list_lookup_fmap, list_lookup_imap, Hf. reflexivity. }
    rewrite Hvs, list_lookup_fmap in Hi.
    destruct (resolved_values ps !! i) as [v |]; [| discriminate].
    cbn in Hi. injection Hi as Hi. now exists v.
Qed.

(** X1. When the product exists and every upload of a non-empty batch
    resolves, [uploadProductImages] answers 200 and writes once: the stored
    image list is the former list followed by one new image per file, in
    the order of the files, each with the url and the asset id its own
    upload returned. *)
Theorem uploadProductImages_appends_in_order (env : Env) (req : Request)
        (products : gmap string Product) (product : Product) (fs : list File) :
  files req = Some fs -> fs <> [] ->
  products !! params_id req = Some product ->
  (forall i f, fs !! i = Some f -> upload_ok env i f = true) ->
  let run := uploadProductImages env req (initial products) in
  exists saved,
    run.1 = {| status_code := 200; json := Data saved |}
    /\ db run.2 = <[product_id product := saved]> products
    /\ calls run.2 = [FindById (params_id req)]
                     ++ map (fun f => UploadStream (buffer f)) fs
                     ++ [Save (product_id product)]
    /\ take (length (images product)) (images saved) = images product
    /\ length (images saved) = (length (images product) + length fs)%nat
    /\ forall i f, fs !! i = Some f ->
         exists v,
           outcome (upload_stream (cloudinary env) i (buffer f)) = Resolved v
           /\ images saved !! (length (images product) + i)%nat
              = Some {| image_id := ObjectId env i;
                        url := Some (secure_url v);
                        public_id := Some (uploaded_public_id v) |}.
Proof.
  intros Hfs Hne Hp Hok. cbv zeta.
  rewrite (uploadProductImages_run env req products product fs Hfs Hne Hp).
  destruct (uploads_resolve env fs Hok) as (vs & -> & Hlen & Hvs). cbv zeta.
  eexists. split; [reflexivity |]. split; [reflexivity |]. split; [reflexivity |].
  cbn [fst snd images pre_save set_finalPrice set_images].
  split; [now rewrite take_app_length |].
  split; [now rewrite length_app, length_imap, Hlen |].
  intros i f Hf. destruct (Hvs i f Hf) as (v & Hv & Ho).
  exists v. split; [exact Ho |].
  rewrite lookup_app_r by lia.
  replace (length (images product) + i - length (images product))%nat with i by lia.
  rewrite list_lookup_imap, Hv. reflexivity.
Qed.

Lemma uploadProductImages_appends_in_order_witness :
  let env := Sample.env [] [] in
  let req := Sample.with_files [Sample.file1; Sample.file2] Sample.bare in
  let run := uploadProductImages env req (initial Sample.catalog) in
  files req = Some [Sample.file1; Sample.file2]
  /\ exists saved,
       run.1 = {| status_code := 200; json := Data saved |}
       /\ length (images saved) = 5%nat.
Proof.
  cbv zeta. split; [reflexivity |].
  assert (Hok : forall i f, [Sample.file1; Sample.file2] !! i = Some f ->
                            upload_ok (Sample.env [] []) i f = true)
    by (intros [| [| i]] f Hf; try reflexivity; discriminate).
  destruct (uploadProductImages_appends_in_order (Sample.env [] [])
              (Sample.with_files [Sample.file1; Sample.file2] Sample.bare)
              Sample.catalog Sample.lamp [Sample.file1; Sample.file2]
              eq_refl ltac:(discriminate) eq_refl Hok)
    as (saved & H1 & _ & _ & _ & H2 & _).
  exists saved. split; [exact H1 | exact H2].
Defined.

(** ** Deleting one image *)

Lemma deleteProductImage_run (env : Env) (req : Request)
      (products : gmap string Product) (product : Product) (image : Image) :
  products !! params_id req = Some product ->
  List.find (has_id (params_imageId req)) (images product) = Some image ->
  deleteProductImage env req (initial products) =
    let kept := List.filter (fun img => negb (has_id (params_imageId req) img))
                            (images product) in
    let saved := pre_save (set_images kept product) in
    let done := {| status_code := 200; json := Message "Image deleted successfully" |} in
    match truthy (public_id image) with
    | Some publicId =>
        match outcome (destroy (cloudinary env) 0 publicId) with
        | Resolved _ =>
            (done, {| db := <[product_id product := saved]> products;
                      calls := [FindById (params_id req); Destroy publicId;
                                Save (product_id product)] |})
        | Rejected e =>
            ({| status_code := 500; json := Failure (message e) |},
             {| db := products;
                calls := [FindById (params_id req); Destroy publicId] |})
        end
    | None =>
        (done, {| db := <[product_id product := saved]> products;
                  calls := [FindById (params_id req); Save (product_id product)] |})
    end.
Proof.
  intros Hp Hfind. unfold deleteProductImage. run_monad.
  cbn [initial db calls app]. rewrite Hp, Hfind. cbv zeta.
  destruct (truthy (public_id image)) as [publicId |]; [| reflexivity].
  rewrite deleteFromCloudinary_destroy.
  destruct (outcome (destroy (cloudinary env) 0 publicId)); reflexivity.
Qed.

Lemma filter_not_has_id (imageId : string) (l : list Image) (img : Image) :
  In img (List.filter (fun x => negb (has_id imageId x)) l)
  <-> In img l /\ image_id img <> imageId.
Proof.
  rewrite filter_In. unfold has_id. split; intros [Hin H]; (split; [exact Hin |]).
  - intros Heq. apply String.eqb_eq in Heq. now rewrite Heq in H.
  - destruct (String.eqb_spec (image_id img) imageId); [contradiction | reflexivity].
Qed.

Lemma find_after_filter (imageId : string) (l : list Image) :
  List.find (has_id imageId) (List.filter (fun img => negb (has_id imageId img)) l) = None.
Proof.
  destruct (List.find _ (List.filter _ _)) as [x |] eqn:Hx; [| reflexivity].
  apply find_some in Hx as [Hin Hx]. apply filter_In in Hin as [_ Hn].
  rewrite Hx in Hn. discriminate.
Qed.

(** X2. When the image exists and the store accepts the deletion of its
    asset (or the image has no asset id, in which case the store is not
    called), [deleteProductImage] answers 200 and the stored image list is
    the former one, in the same order, without the entries that carry the
    given id; at most one deletion is sent to the store, for the asset of
    that image. *)
Theorem deleteProductImage_removes_entry (env : Env) (req : Request)
        (products : gmap string Product) (product : Product) (image : Image) :
  products !! params_id req = Some product ->
  List.find (has_id (params_imageId req)) (images product) = Some image ->
  (forall publicId, truthy (public_id image) = Some publicId ->
                    destroy_ok env 0 publicId = true) ->
  let run := deleteProductImage env req (initial products) in
  exists saved,
    run.1 = {| status_code := 200; json := Message "Image deleted successfully" |}
    /\ db run.2 = <[product_id product := saved]> products
    /\ images saved
       = List.filter (fun img => negb (has_id (params_imageId req) img)) (images product)
    /\ (forall img, In img (images saved)
                    <-> In img (images product) /\ image_id img <> params_imageId req)
    /\ List.find (has_id (params_imageId req)) (images saved) = None
    /\ List.filter is_destroy (calls run.2)
       = match truthy (public_id image) with
         | Some publicId => [Destroy publicId]
         | None => []
         end.
Proof.
  intros Hp Hfind Hok. cbv zeta.
  rewrite (deleteProductImage_run env req products product image Hp Hfind). cbv zeta.
  pose proof (find_after_filter (params_imageId req) (images product)) as Hgone.
  destruct (truthy (public_id image)) as [publicId |] eqn:Ht.
  - specialize (Hok publicId eq_refl). unfold destroy_ok in Hok.
    destruct (outcome (destroy (cloudinary env) 0 publicId)); [| discriminate].
    eexists. split; [reflexivity |]. split; [reflexivity |].
    cbn [images pre_save set_finalPrice set_images].
    split; [reflexivity |]. split; [apply filter_not_has_id |].
    split; [exact Hgone | reflexivity].
  - eexists. split; [reflexivity |]. split; [reflexivity |].
    cbn [images pre_save set_finalPrice set_images].
    split; [reflexivity |]. split; [apply filter_not_has_id |].
    split; [exact Hgone | reflexivity].
Qed.

Lemma deleteProductImage_removes_entry_witness :
  let env := Sample.env [] [] in
  let req := Sample.with_imageId "B" Sample.bare in
  let run := deleteProductImage env req (initial Sample.catalog) in
  List.find (has_id "B") (images Sample.lamp) = Some Sample.imgB
  /\ exists saved,
       db run.2 = <["64f1a2b3c4d5e6f708192a01" := saved]> Sample.catalog
       /\ images saved = [Sample.imgA; Sample.imgC].
Proof.
  cbv zeta. split; [reflexivity |].
  assert (Hok : forall publicId, truthy (public_id Sample.imgB) = Some publicId ->
                                 destroy_ok (Sample.env [] []) 0 publicId = true)
    by (intros publicId H; injection H as <-; reflexivity).
  destruct (deleteProductImage_removes_entry (Sample.env [] [])
              (Sample.with_imageId "B" Sample.bare)
              Sample.catalog Sample.lamp Sample.imgB eq_refl eq_refl Hok)
    as (saved & _ & H1 & H2 & _).
  exists saved. split; [exact H1 | exact H2].
Defined.

(** X3. Deleting the same image a second time, after a deletion that
    succeeded, is answered 404 "Image not found"; the second request sends
    nothing to the store and writes nothing. *)
Theorem deleteProductImage_twice (env env' : Env) (req : Request)
        (products : gmap string Product) (product : Product) (image : Image) :
  products !! params_id req = Some product ->
  product_id product = params_id req ->
  List.find (has_id (params_imageId req)) (images product) = Some image ->
  (forall publicId, truthy (public_id image) = Some publicId ->
                    destroy_ok env 0 publicId = true) ->
  let first := deleteProductImage env req (initial products) in
  deleteProductImage env' req (initial (db first.2))
  = (not_found "Image not found",
     {| db := db first.2; calls := [FindById (params_id req)] |}).
Proof.
  intros Hp Hid Hfind Hok. cbv zeta.
  rewrite (deleteProductImage_run env req products product image Hp Hfind). cbv zeta.
  assert (Hsecond : forall saved,
             images saved = List.filter (fun img => negb (has_id (params_imageId req) img))
                                        (images product) ->
             deleteProductImage env' req (initial (<[product_id product := saved]> products))
             = (not_found "Image not found",
                {| db := <[product_id product := saved]> products;
                   calls := [FindById (params_id req)] |})).
  { intros saved Himgs. unfold deleteProductImage. run_monad. cbn [initial db calls app].
    rewrite Hid, lookup_insert_eq, Himgs, find_after_filter. reflexivity. }
  destruct (truthy (public_id image)) as [publicId |] eqn:Ht.
  - specialize (Hok publicId eq_refl). unfold destroy_ok in Hok.
    destruct (outcome (destroy (cloudinary env) 0 publicId)); [| discriminate].
    cbn [snd db]. now apply Hsecond.
  - cbn [snd db]. now apply Hsecond.
Qed.

Lemma deleteProductImage_twice_witness :
  let env := Sample.env [] [] in
  let req := Sample.with_imageId "B" Sample.bare in
  let first := deleteProductImage env req (initial Sample.catalog) in
  product_id Sample.lamp = params_id req
  /\ (deleteProductImage env req (initial (db first.2))).1 = not_found "Image not found".
Proof.
  cbv zeta. split; [reflexivity |].
  assert (Hok : forall publicId, truthy (public_id Sample.imgB) = Some publicId ->
                                 destroy_ok (Sample.env [] []) 0 publicId = true)
    by (intros publicId H; injection H as <-; reflexivity).
  rewrite (deleteProductImage_twice (Sample.env [] []) (Sample.env [] [])
             (Sample.with_imageId "B" Sample.bare)
             Sample.catalog Sample.lamp Sample.imgB eq_refl eq_refl eq_refl Hok).
  reflexivity.
Defined.

(** ** What a run writes *)

Lemma same_core_refl (p : Product) : same_core p p.
Proof. repeat split. Qed.

Lemma same_core_set_images (imgs : list Image) (p : Product) :
  same_core (set_images imgs p) p.
Proof. repeat split. Qed.

Lemma uploadProductImages_saves_or_nothing : saves_or_nothing uploadProductImages.
Proof.
  intros env req products. cbv zeta.
  destruct (files req) as [[| f fs] |] eqn:Hfs;
    try (left; unfold uploadProductImages; rewrite Hfs; cbn; split; [lia | reflexivity]).
  destruct (products !! params_id req) as [product |] eqn:Hp.
  - rewrite (uploadProductImages_run env req products product (f :: fs) Hfs
               ltac:(discriminate) Hp).
    destruct (Promise_all _) as [vs | e]; cbn.
    + right. split; [reflexivity |].
      eexists product, _. split; [reflexivity |].
      split; [apply same_core_set_images | reflexivity].
    + left. split; [lia | reflexivity].
  - left. unfold uploadProductImages. rewrite Hfs. run_monad.
    cbn [initial db calls]. rewrite Hp.
    destruct (is_ObjectId (params_id req)); cbn; split; (lia || reflexivity).
Qed.

Lemma deleteProductImage_saves_or_nothing : saves_or_nothing deleteProductImage.
Proof.
  intros env req products. cbv zeta.
  destruct (products !! params_id req) as [product |] eqn:Hp.
  - destruct (List.find (has_id (params_imageId req)) (images product))
      as [image |] eqn:Hfind.
    + rewrite (deleteProductImage_run env req products product image Hp Hfind). cbv zeta.
      destruct (truthy (public_id image)) as [publicId |].
      * destruct (outcome (destroy (cloudinary env) 0 publicId)); cbn.
        -- right. split; [reflexivity |].
           eexists product, _. split; [reflexivity |].
           split; [apply same_core_set_images | reflexivity].
        -- left. split; [lia | reflexivity].
      * right. split; [reflexivity |].
        eexists product, _. split; [reflexivity |].
        split; [apply same_core_set_images | reflexivity].
    + left. unfold deleteProductImage. run_monad. cbn [initial db calls].
      rewrite Hp, Hfind. cbn. split; [lia | reflexivity].
  - left. unfold deleteProductImage. run_monad. cbn [initial db calls].
    rewrite Hp.
    destruct (is_ObjectId (params_id req)); cbn; split; (lia || reflexivity).
Qed.

Lemma updateProductImages_not_found (env : Env) (req : Request)
      (products : gmap string Product) :
  products !! params_id req = None ->
  updateProductImages env req (initial products)
  = (answer_to_unknown (params_id req),
     {| db := products; calls := [FindById (params_id req)] |}).
Proof.
  intros Hp. unfold updateProductImages, answer_to_unknown. run_monad.
  cbn [initial db calls app]. rewrite Hp.
  destruct (is_ObjectId (params_id req)); reflexivity.
Qed.

Lemma updateProductImages_saves_or_nothing : saves_or_nothing updateProductImages.
Proof.
  intros env req products. cbv zeta.
  destruct (products !! params_id req) as [product |] eqn:Hp.
  - rewrite (updateProductImages_run env req products product Hp). cbv zeta.
    destruct (Promise_all (map snd _)) as [us | e]; cbn.
    + destruct (Promise_all (imap _ _)) as [vs | e]; cbn.
      * right. split; [reflexivity |].
        eexists product, _. split; [reflexivity |].
        split; [apply same_core_set_images | reflexivity].
      * left. split; [lia | reflexivity].
    + left. split; [lia | reflexivity].
  - rewrite (updateProductImages_not_found env req products Hp).
    unfold answer_to_unknown.
    left. destruct (is_ObjectId (params_id req)); cbn; split; (lia || reflexivity).
Qed.

Lemma addProductRating_saves_or_nothing : saves_or_nothing addProductRating.
Proof.
  intros env req products. cbv zeta.
  destruct (validation_errors req) as [| err errs] eqn:Hv.
  - destruct (products !! params_id req) as [product |] eqn:Hp.
    + rewrite (addProductRating_run env req products product Hv Hp). cbv zeta. cbn.
      right. split; [reflexivity |].
      eexists product, _. split; [reflexivity |].
      split; [| reflexivity]. repeat split.
    + left. unfold addProductRating. rewrite Hv. run_monad. cbn [initial db calls].
      rewrite Hp.
      destruct (is_ObjectId (params_id req)); cbn; split; (lia || reflexivity).
  - left. unfold addProductRating. rewrite Hv. cbn. split; [lia | reflexivity].
Qed.

Lemma save_handlers (h : Handler) :
  In h [uploadProductImages; deleteProductImage; updateProductImages; addProductRating] ->
  saves_or_nothing h.
Proof.
  intros [<- | [<- | [<- | [<- | []]]]].
  - apply uploadProductImages_saves_or_nothing.
  - apply deleteProductImage_saves_or_nothing.
  - apply updateProductImages_saves_or_nothing.
  - apply addProductRating_saves_or_nothing.
Qed.

(** X4. Whatever the state of the stored product, an answer 200 of one
    of the four handlers that write through [save] leaves a stored product
    whose final price follows the rule of the hook for its price and its
    discount, which are the ones it had; its name, description, category,
    quantity, status, SKU and features are the ones it had as well. *)
Theorem save_handlers_put_finalPrice_in_step (h : Handler) (env : Env) (req : Request)
        (products : gmap string Product) :
  In h [uploadProductImages; deleteProductImage; updateProductImages; addProductRating] ->
  status_code (h env req (initial products)).1 = 200%nat ->
  exists product saved,
    products !! params_id req = Some product
    /\ db (h env req (initial products)).2 = <[product_id product := saved]> products
    /\ same_core saved product
    /\ finalPrice saved = recomputeFinalPrice (price saved) (discount saved).
Proof.
  intros Hh H200.
  destruct (save_handlers h Hh env req products) as [[Hne _] | (_ & product & q & Hp & Hq & Hdb)];
    [contradiction |].
  exists product, (pre_save q). split; [exact Hp |]. split; [exact Hdb |].
  split; [exact Hq | reflexivity].
Qed.

Lemma save_handlers_put_finalPrice_in_step_witness :
  let env := Sample.env [] [] in
  let req := Sample.with_rating "64f1a2b3c4d5e6f7081920c3" 4 None Sample.bare in
  status_code (addProductRating env req (initial Sample.catalog)).1 = 200%nat
  /\ exists product saved,
       Sample.catalog !! params_id req = Some product
       /\ db (addProductRating env req (initial Sample.catalog)).2
          = <[product_id product := saved]> Sample.catalog
       /\ same_core saved product
       /\ finalPrice saved = recomputeFinalPrice (price saved) (discount saved).
Proof.
  cbv zeta. split; [reflexivity |].
  apply (save_handlers_put_finalPrice_in_step addProductRating (Sample.env [] [])
           (Sample.with_rating "64f1a2b3c4d5e6f7081920c3" 4 None Sample.bare) Sample.catalog).
  - right. right. right. left. reflexivity.
  - reflexivity.
Defined.

(** X5. An answer other than 200 of one of these four handlers means
    that the products collection was left exactly as it was: none of them
    answers with an error after having written. *)
Theorem save_handlers_write_only_on_200 (h : Handler) (env : Env) (req : Request)
        (products : gmap string Product) :
  In h [uploadProductImages; deleteProductImage; updateProductImages; addProductRating] ->
  status_code (h env req (initial products)).1 <> 200%nat ->
  db (h env req (initial products)).2 = products.
Proof.
  intros Hh Hne.
  destruct (save_handlers h Hh env req products) as [[_ Hdb] | [H200 _]];
    [exact Hdb | contradiction].
Qed.

Lemma save_handlers_write_only_on_200_witness :
  let env := Sample.env [0%nat] [] in
  let req := Sample.with_files [Sample.file1] Sample.bare in
  status_code (updateProductImages env req (initial Sample.catalog)).1 <> 200%nat
  /\ db (updateProductImages env req (initial Sample.catalog)).2 = Sample.catalog.
Proof.
  cbv zeta.
  assert (Hne : status_code (updateProductImages (Sample.env [0%nat] [])
                               (Sample.with_files [Sample.file1] Sample.bare)
                               (initial Sample.catalog)).1 <> 200%nat)
    by (vm_compute; lia).
  split; [exact Hne |].
  apply (save_handlers_write_only_on_200 updateProductImages (Sample.env [0%nat] [])
           (Sample.with_files [Sample.file1] Sample.bare) Sample.catalog).
  - right. right. left. reflexivity.
  - exact Hne.
Defined.

(** ** The cascade, whatever the store answers *)

Lemma delete_images_shape (env : Env) (images : list Image) :
  forall (i0 : nat) (w : World),
    db (delete_images env i0 images w).2 = db w
    /\ exists k, calls (delete_images env i0 images w).2
                 = calls w ++ map Destroy (asset_ids (take k images)).
Proof.
  induction images as [| image rest IH]; intros i0 w.
  - split; [reflexivity |]. exists 0%nat. cbn. now rewrite app_nil_r.
  - cbn [delete_images].
    destruct (truthy (public_id image)) as [publicId |] eqn:Ht.
    + run_monad. rewrite deleteFromCloudinary_destroy. cbn [db calls].
      destruct (outcome (destroy (cloudinary env) i0 publicId)) as [v | e].
      * destruct (IH (S i0) {| db := db w; calls := calls w ++ [Destroy publicId] |})
          as [Hdb [k Hk]].
        split; [exact Hdb |]. exists (S k). rewrite Hk. cbn [db calls take].
        rewrite asset_ids_cons, Ht, <- app_assoc. reflexivity.
      * split; [reflexivity |]. exists 1%nat. cbn [snd calls take].
        rewrite asset_ids_cons, Ht. destruct rest; reflexivity.
    + destruct (IH (S i0) w) as [Hdb [k Hk]].
      split; [exact Hdb |]. exists (S k). rewrite Hk. cbn [take].
      rewrite asset_ids_cons, Ht. reflexivity.
Qed.

Lemma deleteProduct_not_found (env : Env) (req : Request)
      (products : gmap string Product) :
  products !! params_id req = None ->
  deleteProduct env req (initial products)
  = (answer_to_unknown (params_id req),
     {| db := products; calls := [FindById (params_id req)] |}).
Proof.
  intros Hp. unfold deleteProduct, answer_to_unknown. run_monad.
  cbn [initial db calls app]. rewrite Hp.
  destruct (is_ObjectId (params_id req)); reflexivity.
Qed.

Lemma deleteProduct_shape (env : Env) (req : Request)
      (products : gmap string Product) (product : Product) :
  products !! params_id req = Some product ->
  let run := deleteProduct env req (initial products) in
  exists k,
    let destroys := map Destroy (asset_ids (take k (images product))) in
    (run.1 = {| status_code := 200; json := Message "Product deleted successfully" |}
     /\ db run.2 = delete (product_id product) products
     /\ calls run.2 = [FindById (params_id req)] ++ destroys
                      ++ [DeleteOne (product_id product)])
    \/ (status_code run.1 = 500%nat
        /\ db run.2 = products
        /\ calls run.2 = [FindById (params_id req)] ++ destroys).
Proof.
  intros Hp. cbv zeta. unfold deleteProduct.
  cbv [mbind mret M_bind M_ret bind ret findById deleteOne try_catch].
  cbn [initial db calls app]. rewrite Hp.
  destruct (delete_images_shape env (images product) 0
              {| db := products; calls := [FindById (params_id req)] |}) as [Hdb [k Hk]].
  exists k. cbn [db calls] in Hdb, Hk.
  destruct (delete_images env 0 (images product) _) as [[[] | e] w'];
    cbn [fst snd db calls] in *.
  - left. rewrite Hdb, Hk. split; [reflexivity |]. split; [reflexivity |].
    reflexivity.
  - right. rewrite Hdb, Hk. repeat split.
Qed.

Lemma truthy_Some (s : option string) (publicId : string) :
  truthy s = Some publicId -> s = Some publicId /\ publicId <> EmptyString.
Proof.
  destruct s as [[| c s'] |]; cbn; try discriminate.
  intros [= <-]. split; [reflexivity | discriminate].
Qed.

Lemma asset_ids_In (images : list Image) (publicId : string) :
  In publicId (asset_ids images) ->
  exists image, In image images /\ public_id image = Some publicId
                /\ publicId <> EmptyString.
Proof.
  induction images as [| image rest IH]; [intros [] |].
  rewrite asset_ids_cons.
  destruct (truthy (public_id image)) as [p |] eqn:Ht.
  - intros [<- | Hin].
    + exists image. split; [now left | now apply truthy_Some].
    + destruct (IH Hin) as (img & H1 & H2). exists img. split; [now right | exact H2].
  - intros Hin. destruct (IH Hin) as (img & H1 & H2).
    exists img. split; [now right | exact H2].
Qed.

Lemma asset_of_In (images : list Image) (imageId publicId : string) :
  asset_of images imageId = Some publicId ->
  exists image, In image images /\ public_id image = Some publicId
                /\ publicId <> EmptyString.
Proof.
  unfold asset_of. destruct (List.find _ images) as [image |] eqn:Hfind; [| discriminate].
  intros Ht. apply find_some in Hfind as [Hin _].
  exists image. split; [exact Hin | now apply truthy_Some].
Qed.

Lemma uploads_hold_no_destroy (fs : list File) (publicId : string) :
  ~ In (Destroy publicId) (map (fun f => UploadStream (buffer f)) fs).
Proof. induction fs as [| f fs IH]; cbn; [tauto |]. intros [H | H]; [discriminate | auto]. Qed.

Lemma destroy_in_destroys (ids : list string) (publicId : string) :
  In (Destroy publicId) (map Destroy ids) -> In publicId ids.
Proof.
  rewrite in_map_iff. intros (x & [= ->] & Hin). exact Hin.
Qed.

Lemma take_In {A : Type} (k : nat) (l : list A) (x : A) : In x (take k l) -> In x l.
Proof.
  revert k. induction l as [| y l IH]; intros [| k]; cbn; try tauto.
  intros [-> | H]; [now left | right; eauto].
Qed.

Lemma asset_ids_take_In (k : nat) (images : list Image) (publicId : string) :
  In publicId (asset_ids (take k images)) ->
  exists image, In image images /\ public_id image = Some publicId
                /\ publicId <> EmptyString.
Proof.
  intros H. apply asset_ids_In in H as (image & Hin & H).
  exists image. split; [now apply (take_In k) | exact H].
Qed.

Lemma listed_assets_In (images : list Image) (ids : list string) (publicId : string) :
  In publicId (omap (asset_of images) ids) ->
  exists image, In image images /\ public_id image = Some publicId
                /\ publicId <> EmptyString.
Proof.
  induction ids as [| id ids IH]; [intros [] |].
  change (omap (asset_of images) (id :: ids))
    with (match asset_of images id with
          | Some p => p :: omap (asset_of images) ids
          | None => omap (asset_of images) ids
          end).
  destruct (asset_of images id) as [p |] eqn:Ha; [| exact IH].
  intros [<- | Hin]; [now apply (asset_of_In images id) | now apply IH].
Qed.

(** X6. None of the six handlers ever asks the asset store to delete
    anything but an asset of the product the request addresses: every
    deletion they send carries the non-empty asset id of one of the stored
    images of that product. *)
Theorem deletions_target_own_assets (h : Handler) (env : Env) (req : Request)
        (products : gmap string Product) (publicId : string) :
  In h [updateProduct; deleteProduct; uploadProductImages;
        deleteProductImage; updateProductImages; addProductRating] ->
  In (Destroy publicId) (calls (h env req (initial products)).2) ->
  exists product image,
    products !! params_id req = Some product
    /\ In image (images product)
    /\ public_id image = Some publicId
    /\ publicId <> EmptyString.
Proof.
  intros [<- | [<- | [<- | [<- | [<- | [<- | []]]]]]] Hin.
  - (* updateProduct *)
    revert Hin. unfold updateProduct, findByIdAndUpdate. run_monad. cbn [initial db calls app].
    destruct (products !! params_id req); destruct (is_ObjectId (params_id req));
      try destruct (update_validators _); cbn; intros [H | []]; discriminate.
  - (* deleteProduct *)
    destruct (products !! params_id req) as [product |] eqn:Hp.
    + destruct (deleteProduct_shape env req products product Hp) as [k Hk]. cbv zeta in Hk.
      assert (Hd : In (Destroy publicId) (map Destroy (asset_ids (take k (images product))))).
      { destruct Hk as [(_ & _ & Hc) | (_ & _ & Hc)]; rewrite Hc in Hin;
          rewrite !in_app_iff in Hin; cbn in Hin;
          (destruct Hin as [[H | []] | H]; [discriminate | ]); [| exact H].
        destruct H as [H | [H | []]]; [exact H | discriminate]. }
      apply destroy_in_destroys, asset_ids_take_In in Hd as (image & H).
      exists product, image. split; [reflexivity | exact H].
    + rewrite (deleteProduct_not_found env req products Hp) in Hin.
      cbn in Hin. destruct Hin as [H | []]. discriminate.
  - (* uploadProductImages *)
    revert Hin.
    destruct (files req) as [[| f fs] |] eqn:Hfs;
      try (unfold uploadProductImages; rewrite Hfs; cbn; tauto).
    destruct (products !! params_id req) as [product |] eqn:Hp.
    + rewrite (uploadProductImages_run env req products product (f :: fs) Hfs
                 ltac:(discriminate) Hp).
      destruct (Promise_all _); cbn [snd calls]; rewrite !in_app_iff; cbn [In];
        intros H; decompose [or] H; try discriminate; try contradiction;
        exfalso; eapply uploads_hold_no_destroy; eassumption.
    + unfold uploadProductImages. rewrite Hfs. run_monad. cbn [initial db calls].
      rewrite Hp. destruct (is_ObjectId (params_id req)); cbn; intros [H | []]; discriminate.
  - (* deleteProductImage *)
    destruct (products !! params_id req) as [product |] eqn:Hp.
    + destruct (List.find (has_id (params_imageId req)) (images product))
        as [image |] eqn:Hfind.
      * rewrite (deleteProductImage_run env req products product image Hp Hfind) in Hin.
        cbv zeta in Hin.
        destruct (truthy (public_id image)) as [p |] eqn:Ht.
        -- assert (Hpid : p = publicId).
           { destruct (outcome (destroy (cloudinary env) 0 p)); cbn in Hin;
               decompose [or] Hin; try discriminate; try contradiction; congruence. }
           subst p. apply truthy_Some in Ht. apply find_some in Hfind as [Hi _].
           exists product, image. split; [reflexivity |]. split; [exact Hi | exact Ht].
        -- cbn in Hin. decompose [or] Hin; try discriminate; contradiction.
      * revert Hin. unfold deleteProductImage. run_monad. cbn [initial db calls].
        rewrite Hp, Hfind. cbn. intros [H | []]. discriminate.
    + revert Hin. unfold deleteProductImage. run_monad. cbn [initial db calls].
      rewrite Hp. destruct (is_ObjectId (params_id req)); cbn; intros [H | []]; discriminate.
  - (* updateProductImages *)
    destruct (products !! params_id req) as [product |] eqn:Hp.
    + rewrite (updateProductImages_run env req products product Hp) in Hin. cbv zeta in Hin.
      assert (Hd : In (Destroy publicId)
                      (map Destroy (omap (asset_of (images product))
                                         (default [] (body_imagesToDelete req))))).
      { destruct (Promise_all (map snd _)); [destruct (Promise_all (imap _ _)) |];
          cbn [snd calls] in Hin; rewrite !in_app_iff in Hin; cbn [In] in Hin;
          decompose [or] Hin; try discriminate; try contradiction; try assumption;
          exfalso; eapply uploads_hold_no_destroy; eassumption. }
      apply destroy_in_destroys, listed_assets_In in Hd as (image & H).
      exists product, image. split; [reflexivity | exact H].
    + rewrite (updateProductImages_not_found env req products Hp) in Hin.
      cbn in Hin. destruct Hin as [H | []]. discriminate.
  - (* addProductRating *)
    revert Hin.
    destruct (validation_errors req) as [| err errs] eqn:Hv.
    + destruct (products !! params_id req) as [product |] eqn:Hp.
      * rewrite (addProductRating_run env req products product Hv Hp). cbn.
        intros H. decompose [or] H; try discriminate; contradiction.
      * unfold addProductRating. rewrite Hv. run_monad. cbn [initial db calls].
        rewrite Hp. destruct (is_ObjectId (params_id req)); cbn; intros [H | []]; discriminate.
    + unfold addProductRating. rewrite Hv. cbn. tauto.
Qed.

Lemma deletions_target_own_assets_witness :
  let env := Sample.env [] [] in
  let req := Sample.with_imagesToDelete ["B"] Sample.bare in
  In (Destroy "products/b") (calls (updateProductImages env req (initial Sample.catalog)).2)
  /\ exists product image,
       Sample.catalog !! params_id req = Some product
       /\ In image (images product)
       /\ public_id image = Some "products/b"
       /\ "products/b" <> EmptyString.
Proof.
  cbv zeta.
  assert (Hin : In (Destroy "products/b")
                   (calls (updateProductImages (Sample.env [] [])
                             (Sample.with_imagesToDelete ["B"] Sample.bare)
                             (initial Sample.catalog)).2))
    by (vm_compute; tauto).
  split; [exact Hin |].
  apply (deletions_target_own_assets updateProductImages (Sample.env [] [])
           (Sample.with_imagesToDelete ["B"] Sample.bare) Sample.catalog "products/b").
  - do 4 right. left. reflexivity.
  - exact Hin.
Defined.

(** X7. A request on an id under which no product is stored is answered
    by [deleteProduct], [updateProductImages], [addProductRating] (once
    validation passed), [uploadProductImages] (once files are present) and
    [updateProduct] (once the validators passed) after a single call to
    the database and none to the asset store, the collection unchanged:
    with 404 "Product not found" when the id can be cast to an ObjectId,
    and with 500 and the message of the cast error when it cannot. *)
Theorem unknown_product_is_not_found (env : Env) (req : Request)
        (products : gmap string Product) :
  products !! params_id req = None ->
  let looked_up := {| db := products; calls := [FindById (params_id req)] |} in
  let answer :=
    if is_ObjectId (params_id req)
    then {| status_code := 404; json := Failure "Product not found" |}
    else {| status_code := 500; json := Failure (message cast_error) |} in
  deleteProduct env req (initial products) = (answer, looked_up)
  /\ updateProductImages env req (initial products) = (answer, looked_up)
  /\ (validation_errors req = [] ->
      addProductRating env req (initial products) = (answer, looked_up))
  /\ (forall f fs, files req = Some (f :: fs) ->
      uploadProductImages env req (initial products) = (answer, looked_up))
  /\ (update_validators (body_update req) = true ->
      updateProduct env req (initial products)
      = (answer, {| db := products; calls := [FindByIdAndUpdate (params_id req)] |})).
Proof.
  intros Hp. cbv zeta.
  split; [now apply deleteProduct_not_found |].
  split; [now apply updateProductImages_not_found |].
  split; [| split].
  - intros Hv. unfold addProductRating. rewrite Hv. run_monad.
    cbn [initial db calls app]. rewrite Hp.
    destruct (is_ObjectId (params_id req)); reflexivity.
  - intros f fs Hfs. unfold uploadProductImages. rewrite Hfs. run_monad.
    cbn [initial db calls app]. rewrite Hp.
    destruct (is_ObjectId (params_id req)); reflexivity.
  - intros Hv. unfold updateProduct, findByIdAndUpdate. run_monad.
    cbn [initial db calls app]. rewrite Hv, Hp.
    destruct (is_ObjectId (params_id req)); reflexivity.
Qed.

Lemma unknown_product_is_not_found_witness :
  let req := Sample.with_imageId "B"
               {| params_id := "64f1a2b3c4d5e6f708192a09"; params_imageId := "B"; files := None;
                  body_imagesToDelete := None; body_rating := Num.of_Z 4;
                  body_review := None; body_update := Sample.no_update;
                  user_id := "64f1a2b3c4d5e6f7081920a1"; validation_errors := [] |} in
  Sample.catalog !! params_id req = None
  /\ deleteProduct (Sample.env [] []) req (initial Sample.catalog)
     = (not_found "Product not found",
        {| db := Sample.catalog; calls := [FindById "64f1a2b3c4d5e6f708192a09"] |}).
Proof.
  cbv zeta. split; [reflexivity |].
  refine (proj1 (unknown_product_is_not_found (Sample.env [] []) _ Sample.catalog _)).
  reflexivity.
Defined.

(** ** Other products *)

Lemma insert_other (products : gmap string Product) (i j : string) (p : Product) :
  j <> i -> <[i := p]> products !! j = products !! j.
Proof. intros H. apply lookup_insert_ne. congruence. Qed.

(** X8. A request never changes a product other than the one it
    addresses: in a collection where every product is stored under its own
    id, after any of the six handlers the products stored under the other
    ids are the same as before. *)
Theorem handlers_leave_other_products (h : Handler) (env : Env) (req : Request)
        (products : gmap string Product) (j : string) :
  In h [updateProduct; deleteProduct; uploadProductImages;
        deleteProductImage; updateProductImages; addProductRating] ->
  keyed_by_id products ->
  j <> params_id req ->
  db (h env req (initial products)).2 !! j = products !! j.
Proof.
  intros Hh Hkey Hj.
  destruct Hh as [<- | [<- | Hh]].
  - (* updateProduct *)
    unfold updateProduct, findByIdAndUpdate. run_monad. cbn [initial db calls app].
    destruct (products !! params_id req); destruct (is_ObjectId (params_id req));
      try destruct (update_validators _); cbn;
      solve [now apply insert_other | reflexivity].
  - (* deleteProduct *)
    destruct (products !! params_id req) as [product |] eqn:Hp.
    + destruct (deleteProduct_shape env req products product Hp) as [k Hk]. cbv zeta in Hk.
      destruct Hk as [(_ & -> & _) | (_ & -> & _)]; [| reflexivity].
      rewrite (Hkey _ _ Hp). apply lookup_delete_ne. congruence.
    + now rewrite (deleteProduct_not_found env req products Hp).
  - assert (Hs : saves_or_nothing h).
    { apply save_handlers. cbn in *. tauto. }
    destruct (Hs env req products) as [[_ ->] | (_ & product & q & Hp & _ & ->)];
      [reflexivity |].
    rewrite (Hkey _ _ Hp). now apply insert_other.
Qed.

Lemma two_products_keyed : keyed_by_id Shop.two_products.
Proof.
  intros i p. unfold Shop.two_products, Sample.catalog.
  rewrite lookup_insert_Some, lookup_singleton_Some.
  intros [[<- <-] | [_ [<- <-]]]; reflexivity.
Qed.

Lemma handlers_leave_other_products_witness :
  keyed_by_id Shop.two_products
  /\ "64f1a2b3c4d5e6f708192a02" <> params_id Sample.bare
  /\ db (deleteProduct (Sample.env [] []) Sample.bare (initial Shop.two_products)).2 !! "64f1a2b3c4d5e6f708192a02"
     = Shop.two_products !! "64f1a2b3c4d5e6f708192a02".
Proof.
  split; [exact two_products_keyed |]. split; [discriminate |].
  apply (handlers_leave_other_products deleteProduct (Sample.env [] []) Sample.bare
           Shop.two_products "64f1a2b3c4d5e6f708192a02").
  - right. left. reflexivity.
  - exact two_products_keyed.
  - discriminate.
Defined.

(** ** After a product is gone *)

(** X9. [deleteProduct] answers 200 only when the product is gone from
    the collection, and then a second [deleteProduct] on the same id is
    answered 404 without any call to the asset store (the id, under which
    a product was stored, being an ObjectId; the query on any other id
    fails on the cast, which the handler answers with 500). *)
Theorem deleteProduct_then_not_found (env env' : Env) (req : Request)
        (products : gmap string Product) :
  keyed_by_id products ->
  status_code (deleteProduct env req (initial products)).1 = 200%nat ->
  let gone := db (deleteProduct env req (initial products)).2 in
  gone = delete (params_id req) products
  /\ gone !! params_id req = None
  /\ deleteProduct env' req (initial gone)
     = (if is_ObjectId (params_id req)
        then not_found "Product not found"
        else {| status_code := 500; json := Failure (message cast_error) |},
        {| db := gone; calls := [FindById (params_id req)] |}).
Proof.
  intros Hkey H200. cbv zeta.
  destruct (products !! params_id req) as [product |] eqn:Hp.
  - destruct (deleteProduct_shape env req products product Hp) as [k Hk]. cbv zeta in Hk.
    destruct Hk as [(_ & Hdb & _) | (H500 & _)]; [| rewrite H500 in H200; discriminate].
    rewrite Hdb, (Hkey _ _ Hp).
    split; [reflexivity |]. split; [apply lookup_delete_eq |].
    apply deleteProduct_not_found, lookup_delete_eq.
  - rewrite (deleteProduct_not_found env req products Hp) in H200.
    unfold answer_to_unknown in H200.
    destruct (is_ObjectId (params_id req)); discriminate.
Qed.

Lemma deleteProduct_then_not_found_witness :
  let gone := db (deleteProduct (Sample.env [] []) Sample.bare (initial Shop.two_products)).2 in
  status_code (deleteProduct (Sample.env [] []) Sample.bare (initial Shop.two_products)).1
  = 200%nat
  /\ gone !! "64f1a2b3c4d5e6f708192a01" = None.
Proof.
  cbv zeta. split; [reflexivity |].
  exact (proj1 (proj2 (deleteProduct_then_not_found (Sample.env [] []) (Sample.env [] [])
                         Sample.bare Shop.two_products two_products_keyed eq_refl))).
Defined.

(** ** Deletions that succeed before an upload that fails *)

(** X10. In [updateProductImages], when every requested deletion is
    accepted by the store and one of the uploads is rejected, the answer is
    500 and the stored product is unchanged, although the deletion of every
    listed asset has been sent: the stored list still shows the images
    whose assets the store was asked to delete. *)
Theorem updateProductImages_upload_failure_after_deletions (env : Env) (req : Request)
        (products : gmap string Product) (product : Product)
        (fs : list File) (i : nat) (f : File) :
  products !! params_id req = Some product ->
  (forall k imageId publicId,
      default [] (body_imagesToDelete req) !! k = Some imageId ->
      asset_of (images product) imageId = Some publicId ->
      destroy_ok env k publicId = true) ->
  files req = Some fs -> fs !! i = Some f -> upload_ok env i f = false ->
  let run := updateProductImages env req (initial products) in
  status_code run.1 = 500%nat
  /\ db run.2 = products
  /\ List.filter is_destroy (calls run.2)
     = map Destroy (omap (asset_of (images product))
                         (default [] (body_imagesToDelete req))).
Proof.
  intros Hp Hdel Hfs Hi Hbad. cbv zeta.
  rewrite (updateProductImages_run env req products product Hp). cbv zeta.
  destruct (deletions_resolve env (images product) _ Hdel) as [us ->].
  rewrite Hfs. change (default [] (Some fs)) with fs.
  destruct (upload_rejects env fs i f Hi Hbad) as [e ->].
  cbn [fst snd status_code db calls]. split; [reflexivity |]. split; [reflexivity |].
  rewrite !List.filter_app, filter_is_destroy_destroys, filter_is_destroy_uploads.
  cbn. now rewrite app_nil_r.
Qed.

Lemma updateProductImages_upload_failure_after_deletions_witness :
  let env := Sample.env [0%nat] [] in
  let req := Sample.with_files [Sample.file1]
               (Sample.with_imagesToDelete ["A"] Sample.bare) in
  let run := updateProductImages env req (initial Sample.catalog) in
  upload_ok env 0 Sample.file1 = false
  /\ db run.2 = Sample.catalog
  /\ List.filter is_destroy (calls run.2) = [Destroy "products/a"].
Proof.
  cbv zeta. split; [reflexivity |].
  assert (Hdel : forall k imageId publicId,
             ["A"] !! k = Some imageId ->
             asset_of (images Sample.lamp) imageId = Some publicId ->
             destroy_ok (Sample.env [0%nat] []) k publicId = true).
  { intros [| k] imageId publicId Hk Ha; [| discriminate].
    injection Hk as <-. injection Ha as <-. reflexivity. }
  exact (proj2 (updateProductImages_upload_failure_after_deletions
                  (Sample.env [0%nat] [])
                  (Sample.with_files [Sample.file1]
                     (Sample.with_imagesToDelete ["A"] Sample.bare))
                  Sample.catalog Sample.lamp [Sample.file1] 0 Sample.file1
                  eq_refl Hdel eq_refl eq_refl eq_refl)).
Defined.

(** ** The generic update and the bounds of the schema *)

(** X11. [updateProduct] writes nothing when the body sets a negative
    price, a negative quantity, a negative final price or a discount
    outside [0, 100] (NaN included): the validators reject the update and
    the answer is 500. *)
Theorem updateProduct_rejects_out_of_range (env : Env) (req : Request)
        (products : gmap string Product) (v : number) :
  (new_price (body_update req) = Some v /\ Num.geb v (Num.of_Z 0) = false)
  \/ (new_quantity (body_update req) = Some v /\ Num.geb v (Num.of_Z 0) = false)
  \/ (new_finalPrice (body_update req) = Some v /\ Num.geb v (Num.of_Z 0) = false)
  \/ (new_discount (body_update req) = Some v
      /\ (Num.geb v (Num.of_Z 0) = false \/ Num.geb (Num.of_Z 100) v = false)) ->
  let run := updateProduct env req (initial products) in
  status_code run.1 = 500%nat /\ db run.2 = products.
Proof.
  intros H. cbv zeta.
  assert (Hv : update_validators (body_update req) = false).
  { unfold update_validators, at_least, at_most.
    destruct H as [[-> Hv] | [[-> Hv] | [[-> Hv] | [-> [Hv | Hv]]]]]; rewrite Hv;
      repeat (rewrite ?andb_false_r, ?andb_false_l; try reflexivity);
      repeat match goal with
             | |- context [match ?x with Some _ => _ | None => _ end] => destruct x
             end;
      repeat (rewrite ?andb_false_r, ?andb_false_l; try reflexivity);
      repeat match goal with
             | |- context [Num.geb ?a ?b] => destruct (Num.geb a b)
             end; reflexivity. }
  unfold updateProduct, findByIdAndUpdate. run_monad. cbn [initial db calls app].
  rewrite Hv.
  destruct (products !! params_id req); destruct (is_ObjectId (params_id req));
    split; reflexivity.
Qed.

Lemma updateProduct_rejects_out_of_range_witness :
  let body := {| new_name := None; new_price := None;
                 new_discount := Some (Num.of_Z 150); new_finalPrice := None;
                 new_quantity := None |} in
  let run := updateProduct (Sample.env [] []) (Sample.with_update body Sample.bare)
               (initial Sample.catalog) in
  Num.geb (Num.of_Z 100) (Num.of_Z 150) = false
  /\ status_code run.1 = 500%nat /\ db run.2 = Sample.catalog.
Proof.
  cbv zeta. split; [reflexivity |].
  apply (updateProduct_rejects_out_of_range (Sample.env [] [])
           (Sample.with_update
              {| new_name := None; new_price := None;
                 new_discount := Some (Num.of_Z 150); new_finalPrice := None;
                 new_quantity := None |} Sample.bare)
           Sample.catalog (Num.of_Z 150)).
  right. right. right. split; [reflexivity |]. right. reflexivity.
Defined.

(** ** Replacing one image in one request or in two *)

Lemma filter_single_id (imageId : string) (images : list Image) :
  List.filter (fun img => negb (includes [imageId] (image_id img))) images
  = List.filter (fun img => negb (has_id imageId img)) images.
Proof.
  apply List.filter_ext. intros img. unfold includes, has_id. cbn.
  now rewrite orb_false_r.
Qed.

(** X12. Deleting one image and adding files with a single
    [updateProductImages] gives the same answer and the same collection as
    [deleteProductImage] followed by [uploadProductImages], when the store
    accepts the deletion and every upload. *)
Theorem updateProductImages_is_delete_then_upload (env : Env) (req : Request)
        (products : gmap string Product) (product : Product) (image : Image)
        (fs : list File) :
  products !! params_id req = Some product ->
  product_id product = params_id req ->
  body_imagesToDelete req = Some [params_imageId req] ->
  files req = Some fs -> fs <> [] ->
  List.find (has_id (params_imageId req)) (images product) = Some image ->
  (forall publicId, truthy (public_id image) = Some publicId ->
                    destroy_ok env 0 publicId = true) ->
  (forall i f, fs !! i = Some f -> upload_ok env i f = true) ->
  let at_once := updateProductImages env req (initial products) in
  let deleted := deleteProductImage env req (initial products) in
  let in_two := uploadProductImages env req (initial (db deleted.2)) in
  at_once.1 = in_two.1 /\ db at_once.2 = db in_two.2.
Proof.
  intros Hp Hid Hids Hfs Hne Hfind Hdel Hup. cbv zeta.
  rewrite (updateProductImages_run env req products product Hp). cbv zeta.
  rewrite Hids, Hfs. change (default [] (Some ?x)) with x.
  assert (Hdel' : forall k imageId publicId,
             [params_imageId req] !! k = Some imageId ->
             asset_of (images product) imageId = Some publicId ->
             destroy_ok env k publicId = true).
  { intros [| k] imageId publicId Hk Ha; [| discriminate].
    injection Hk as <-. unfold asset_of in Ha. rewrite Hfind in Ha. now apply Hdel. }
  destruct (deletions_resolve env (images product) _ Hdel') as [us ->].
  destruct (uploads_resolve env fs Hup) as (vs & Hvs & _).
  rewrite Hvs. rewrite filter_single_id.
  rewrite (deleteProductImage_run env req products product image Hp Hfind). cbv zeta.
  set (kept := List.filter (fun img => negb (has_id (params_imageId req) img))
                           (images product)).
  assert (Hsecond :
    uploadProductImages env req
      (initial (<[product_id product := pre_save (set_images kept product)]> products))
    = ({| status_code := 200;
          json := Data (pre_save (set_images (kept ++ imap (uploaded_image env) vs) product)) |},
       {| db := <[product_id product :=
                    pre_save (set_images (kept ++ imap (uploaded_image env) vs) product)]>
                  products;
          calls := [FindById (params_id req)]
                   ++ map (fun f => UploadStream (buffer f)) fs
                   ++ [Save (product_id product)] |})).
  { rewrite (uploadProductImages_run env req _ (pre_save (set_images kept product)) fs
               Hfs Hne) by (rewrite Hid; apply lookup_insert_eq).
    rewrite Hvs. cbv zeta. cbn [product_id pre_save set_finalPrice set_images images].
    rewrite insert_insert_eq. reflexivity. }
  destruct (truthy (public_id image)) as [publicId |] eqn:Ht.
  - specialize (Hdel publicId eq_refl). unfold destroy_ok in Hdel.
    destruct (outcome (destroy (cloudinary env) 0 publicId)); [| discriminate].
    cbn [snd db]. rewrite Hsecond. split; reflexivity.
  - cbn [snd db]. rewrite Hsecond. split; reflexivity.
Qed.

Lemma updateProductImages_is_delete_then_upload_witness :
  let env := Sample.env [] [] in
  let req := Sample.with_imageId "B"
               (Sample.with_files [Sample.file1]
                  (Sample.with_imagesToDelete ["B"] Sample.bare)) in
  let at_once := updateProductImages env req (initial Sample.catalog) in
  let deleted := deleteProductImage env req (initial Sample.catalog) in
  let in_two := uploadProductImages env req (initial (db deleted.2)) in
  List.find (has_id "B") (images Sample.lamp) = Some Sample.imgB
  /\ at_once.1 = in_two.1 /\ db at_once.2 = db in_two.2.
Proof.
  cbv zeta. split; [reflexivity |].
  assert (Hdel : forall publicId, truthy (public_id Sample.imgB) = Some publicId ->
                                  destroy_ok (Sample.env [] []) 0 publicId = true)
    by (intros publicId H; injection H as <-; reflexivity).
  assert (Hup : forall i f, [Sample.file1] !! i = Some f ->
                            upload_ok (Sample.env [] []) i f = true)
    by (intros [| i] f Hf; [reflexivity | discriminate]).
  exact (updateProductImages_is_delete_then_upload (Sample.env [] [])
           (Sample.with_imageId "B"
              (Sample.with_files [Sample.file1]
                 (Sample.with_imagesToDelete ["B"] Sample.bare)))
           Sample.catalog Sample.lamp Sample.imgB [Sample.file1]
           eq_refl eq_refl eq_refl eq_refl ltac:(discriminate) eq_refl Hdel Hup).
Defined.

(** ** Ratings of the other raters, and submitting twice *)

Lemma findIndex_from_first {A : Type} (f : A -> bool) (l : list A) :
  forall i n x,
    l !! n = Some x -> f x = true ->
    (forall m y, (m < n)%nat -> l !! m = Some y -> f y = false) ->
    findIndex_from f l i = i + Z.of_nat n.
Proof.
  induction l as [| y l IH]; intros i n x Hn Hx Hmin; [discriminate |].
  destruct n as [| n]; cbn in *.
  - injection Hn as ->. rewrite Hx. lia.
  - rewrite (Hmin 0%nat y) by (reflexivity || lia).
    rewrite (IH (i + 1) n x Hn Hx); [lia |].
    intros m z Hm Hz. apply (Hmin (S m)); [lia | exact Hz].
Qed.


(** The ratings [addProductRating] stores. *)
Lemma stored_ratings_cases (env : Env) (req : Request) (l : list Rating) :
  let s := submitted_rating env req in
  let idx := findIndex (rated_by (user_id req)) l in
  let l' := if 0 <=? idx then <[Z.to_nat idx := s]> l else l ++ [s] in
  (exists n old, l !! n = Some old /\ rated_by (user_id req) old = true
                 /\ (forall m y, (m < n)%nat -> l !! m = Some y ->
                                 rated_by (user_id req) y = false)
                 /\ l' = <[n := s]> l)
  \/ (Forall (fun r => rated_by (user_id req) r = false) l /\ l' = l ++ [s]).
Proof.
  cbv zeta.
  destruct (Z.leb_spec 0 (findIndex (rated_by (user_id req)) l)) as [Hfound | Habsent].
  - left. destruct (findIndex_from_found _ _ 0 Hfound) as (n & x & Hn & Hx & Hfx & Hmin).
    fold (findIndex (rated_by (user_id req)) l) in Hn.
    exists n, x. rewrite Hn, Z.add_0_l, Nat2Z.id. auto.
  - right. split; [| reflexivity].
    apply (findIndex_from_absent _ _ 0); [lia | exact Habsent].
Qed.

Lemma submitted_is_rated (env : Env) (req : Request) :
  rated_by (user_id req) (submitted_rating env req) = true.
Proof. apply rated_by_iff. reflexivity. Qed.



(** X14. Submitting the same rating twice at the same instant is the
    same as submitting it once: the second request gets the answer of the
    first and leaves the collection as the first left it. *)
Theorem addProductRating_twice (env : Env) (req : Request)
        (products : gmap string Product) (product : Product) :
  validation_errors req = [] ->
  products !! params_id req = Some product ->
  product_id product = params_id req ->
  let first := addProductRating env req (initial products) in
  let second := addProductRating env req (initial (db first.2)) in
  second.1 = first.1 /\ db second.2 = db first.2.
Proof.
  intros Hv Hp Hid. cbv zeta.
  rewrite (addProductRating_run env req products product Hv Hp). cbv zeta.
  cbn [fst snd db].
  set (l1 := if 0 <=? findIndex (rated_by (user_id req)) (ratings product)
             then <[Z.to_nat (findIndex (rated_by (user_id req)) (ratings product))
                    := submitted_rating env req]> (ratings product)
             else ratings product ++ [submitted_rating env req]).
  set (saved := pre_save (set_averageRating (recomputeAverageRating l1)
                            (set_ratings l1 product))).
  rewrite (addProductRating_run env req _ saved Hv)
    by (rewrite Hid; apply lookup_insert_eq).
  cbv zeta. cbn [fst snd db].
  assert (Hl1 : (if 0 <=? findIndex (rated_by (user_id req)) (ratings saved)
                 then <[Z.to_nat (findIndex (rated_by (user_id req)) (ratings saved))
                        := submitted_rating env req]> (ratings saved)
                 else ratings saved ++ [submitted_rating env req]) = l1).
  { change (ratings saved) with l1.
    pose proof (submitted_is_rated env req) as Hs.
    assert (Hfirst : exists n, l1 !! n = Some (submitted_rating env req)
                               /\ forall m y, (m < n)%nat -> l1 !! m = Some y ->
                                              rated_by (user_id req) y = false).
    { subst l1.
      destruct (stored_ratings_cases env req (ratings product))
        as [(n & old & Hn & Ho & Hmin & ->) | [Hnone ->]].
      - exists n. split; [apply list_lookup_insert_eq; now apply lookup_lt_Some in Hn |].
        intros m y Hm Hy. rewrite list_lookup_insert_ne in Hy by lia. eauto.
      - exists (length (ratings product)). split.
        + rewrite lookup_app_r, Nat.sub_diag by lia. reflexivity.
        + intros m y Hm Hy. rewrite lookup_app_l in Hy by lia.
          rewrite Forall_lookup in Hnone. eauto. }
    destruct Hfirst as (n & Hn & Hmin).
    unfold findIndex. rewrite (findIndex_from_first _ _ 0 n _ Hn Hs Hmin).
    rewrite Z.add_0_l, Nat2Z.id.
    replace (0 <=? Z.of_nat n) with true by (symmetry; apply Z.leb_le; lia).
    now apply list_insert_id. }
  rewrite Hl1. change (product_id saved) with (product_id product).
  rewrite insert_insert_eq. split; reflexivity.
Qed.

Lemma addProductRating_twice_witness :
  let env := Sample.env [] [] in
  let req := Sample.with_rating "64f1a2b3c4d5e6f7081920c3" 2 None Sample.bare in
  let first := addProductRating env req (initial Sample.catalog) in
  let second := addProductRating env req (initial (db first.2)) in
  product_id Sample.lamp = params_id req
  /\ second.1 = first.1 /\ db second.2 = db first.2.
Proof.
  cbv zeta. split; [reflexivity |].
  exact (addProductRating_twice (Sample.env [] [])
           (Sample.with_rating "64f1a2b3c4d5e6f7081920c3" 2 None Sample.bare)
           Sample.catalog Sample.lamp eq_refl eq_refl eq_refl).
Defined.

(** ** The average of a single rating *)

Lemma div_eucl_exact (q b : Z) :
  0 < b -> Z.div_eucl (q * b) b = (q, 0).
Proof.
  intros Hb. pose proof (Z.div_mul q b ltac:(lia)) as Hq.
  pose proof (Z.mod_mul q b ltac:(lia)) as Hr.
  unfold Z.div, Z.modulo in Hq, Hr.
  destruct (Z.div_eucl (q * b) b) as [q' r']. cbn in *. congruence.
Qed.

Lemma div_one_finite (s : bool) (m : positive) (e : Z) :
  bounded Num.prec Num.emax m e = true ->
  Num.div (S754_finite s m e) (Num.of_Z 1) = S754_finite s m e.
Proof.
  intros Hb. unfold bounded, canonical_mantissa in Hb.
  apply andb_true_iff in Hb as [Hc He].
  apply Z.eqb_eq in Hc. apply Z.leb_le in He.
  change (Num.of_Z 1) with (S754_finite false 4503599627370496 (-52)).
  unfold Num.div, SFdiv, SFdiv_core_binary.
  change (Zdigits2 (Z.pos 4503599627370496)) with 53.
  cbn [Zdigits2].
  unfold fexp, emin, Num.prec, Num.emax in *.
  set (d := Z.pos (digits2_pos m)) in *.
  set (e' := Z.min (Z.max (d + e - (53 + -52) - 53) (3 - 1024 - 53)) (e - -52)).
  assert (Hcase : (e' = e - 1 /\ d = 53 /\ -1074 < e) \/ e' = e) by (subst e'; lia).
  rewrite xorb_false_r.
  destruct Hcase as [(He' & Hd & Hmin) | He']; rewrite He'.
  - replace (e - -52 - (e - 1)) with 53 by lia. cbv iota.
    rewrite Z.shiftl_mul_pow2 by lia.
    replace (Z.pos m * 2 ^ 53) with (Z.pos m~0 * 4503599627370496) by lia.
    rewrite div_eucl_exact by lia.
    change (new_location 4503599627370496 0) with loc_Exact.
    unfold binary_round_aux, shr_fexp. cbn [Zdigits2 digits2_pos].
    rewrite Pos2Z.inj_succ. fold d.
    unfold fexp, emin.
    replace (Z.max (Z.succ d + (e - 1) - 53) (3 - 1024 - 53) - (e - 1)) with 1 by lia.
    cbn [shr shr_record_of_loc SpecFloat.iter_pos shr_1 orb shr_m loc_of_shr_record
         round_nearest_even Zdigits2].
    fold d.
    replace (Z.max (d + (e - 1 + 1) - 53) (3 - 1024 - 53) - (e - 1 + 1)) with 0 by lia.
    cbn [shr shr_m].
    replace (e - 1 + 1) with e by lia.
    replace (e <=? 1024 - 53) with true by (symmetry; apply Z.leb_le; lia).
    reflexivity.
  - replace (e - -52 - e) with 52 by lia. cbv iota.
    rewrite Z.shiftl_mul_pow2 by lia.
    change (2 ^ 52) with 4503599627370496.
    rewrite div_eucl_exact by lia.
    change (new_location 4503599627370496 0) with loc_Exact.
    unfold binary_round_aux, shr_fexp. cbn [Zdigits2]. fold d.
    unfold fexp, emin.
    replace (Z.max (d + e - 53) (3 - 1024 - 53) - e) with 0 by lia.
    cbn [shr shr_record_of_loc shr_m loc_of_shr_record round_nearest_even Zdigits2].
    fold d.
    replace (Z.max (d + e - 53) (3 - 1024 - 53) - e) with 0 by lia.
    cbn [shr shr_m].
    replace (e <=? 1024 - 53) with true by (symmetry; apply Z.leb_le; lia).
    reflexivity.
Qed.

Lemma in_rating_range_finite (x : number) :
  Num.geb x (Num.of_Z 1) = true -> Num.geb (Num.of_Z 5) x = true ->
  exists s m e, x = S754_finite s m e.
Proof.
  destruct x as [s | s | | s m e]; intros H1 H5.
  - discriminate H1.
  - destruct s; [discriminate H1 | discriminate H5].
  - discriminate H1.
  - now exists s, m, e.
Qed.

Lemma average_of_one (r : Rating) :
  Num.representable (rating r) = true ->
  Num.geb (rating r) (Num.of_Z 1) = true ->
  Num.geb (Num.of_Z 5) (rating r) = true ->
  recomputeAverageRating [r] = rating r.
Proof.
  intros Hv H1 H5.
  destruct (in_rating_range_finite _ H1 H5) as (s & m & e & Hx).
  unfold recomputeAverageRating. cbn [length Nat.eqb fold_left Z.of_nat Pos.of_succ_nat].
  rewrite Hx in *.
  change (Num.add (Num.of_Z 0) (S754_finite s m e)) with (S754_finite s m e).
  now apply div_one_finite.
Qed.

(** X15. The first rating of a product is its average: when a product
    without ratings receives a valid submission whose score is a binary64
    value between 1 and 5, the stored product has that single rating and
    its average rating is exactly the score. *)
Theorem first_rating_is_the_average (env : Env) (req : Request)
        (products : gmap string Product) (product : Product) :
  validation_errors req = [] ->
  products !! params_id req = Some product ->
  product_id product = params_id req ->
  ratings product = [] ->
  Num.representable (body_rating req) = true ->
  Num.geb (body_rating req) (Num.of_Z 1) = true ->
  Num.geb (Num.of_Z 5) (body_rating req) = true ->
  let run := addProductRating env req (initial products) in
  exists saved,
    run.1 = {| status_code := 200; json := Data saved |}
    /\ db run.2 !! params_id req = Some saved
    /\ ratings saved = [{| user := user_id req; rating := body_rating req;
                           review := body_review req; date := Date_now env |}]
    /\ averageRating saved = body_rating req.
Proof.
  intros Hv Hp Hid Hnil Hrep H1 H5. cbv zeta.
  rewrite (addProductRating_run env req products product Hv Hp). cbv zeta.
  rewrite Hnil. cbn [findIndex findIndex_from Z.leb Z.compare app].
  eexists. split; [reflexivity |].
  cbn [fst snd db]. rewrite Hid. split; [apply lookup_insert_eq |].
  cbn [ratings averageRating pre_save set_finalPrice set_averageRating set_ratings].
  split; [reflexivity |].
  now apply (average_of_one (submitted_rating env req)).
Qed.

Lemma first_rating_is_the_average_witness :
  let env := Sample.env [] [] in
  let req := Sample.with_rating "64f1a2b3c4d5e6f7081920a1" 3 None Shop.on_shade in
  let run := addProductRating env req (initial Shop.two_products) in
  ratings Shop.shade = []
  /\ Num.geb (body_rating req) (Num.of_Z 1) = true
  /\ exists saved,
       db run.2 !! "64f1a2b3c4d5e6f708192a02" = Some saved /\ averageRating saved = Num.of_Z 3.
Proof.
  cbv zeta. split; [reflexivity |]. split; [reflexivity |].
  destruct (first_rating_is_the_average (Sample.env [] [])
              (Sample.with_rating "64f1a2b3c4d5e6f7081920a1" 3 None Shop.on_shade)
              Shop.two_products Shop.shade
              eq_refl eq_refl eq_refl eq_refl eq_refl eq_refl eq_refl)
    as (saved & _ & H1 & _ & H2).
  exists saved. split; [exact H1 | exact H2].
Defined.

(** ** Creating a product *)

Lemma sku_taken_iff (products : gmap string Product) (s : string) :
  sku_taken products s = true
  <-> exists i p, products !! i = Some p /\ sku p = s.
Proof.
  unfold sku_taken. rewrite existsb_exists. split.
  - intros ([i p] & Hin & Heq). apply list_elem_of_In, elem_of_map_to_list in Hin.
    apply String.eqb_eq in Heq. now exists i, p.
  - intros (i & p & Hp & Heq). exists (i, p). split.
    + now apply list_elem_of_In, elem_of_map_to_list.
    + now apply String.eqb_eq.
Qed.

Lemma schema_valid_set_images (imgs : list Image) (p : Product) :
  schema_valid (set_images imgs p) = schema_valid p.
Proof. reflexivity. Qed.

Lemma createProduct_run (document : Product) (env : Env) (req : Request)
      (products : gmap string Product) :
  validation_errors req = [] ->
  let fs := default [] (files req) in
  let uploads := map (fun f => UploadStream (buffer f)) fs in
  let duplicate := {| status_code := 400;
                      json := Failure "Product with this SKU already exists" |} in
  createProduct document env req (initial products) =
    match Promise_all (imap (fun i f => upload_stream (cloudinary env) i (buffer f)) fs) with
    | Rejected e =>
        ({| status_code := 500; json := Failure (message e) |},
         {| db := products; calls := uploads |})
    | Resolved vs =>
        let product := match fs with
                       | [] => document
                       | _ :: _ => set_images (imap (uploaded_image env) vs) document
                       end in
        let tried := {| db := products; calls := uploads ++ [Save (product_id document)] |} in
        if schema_valid document then
          match products !! product_id document with
          | Some _ => (duplicate, tried)
          | None =>
              if sku_taken products (sku document)
              then (duplicate, tried)
              else ({| status_code := 201; json := Data (pre_save product) |},
                    {| db := <[product_id document := pre_save product]> products;
                       calls := uploads ++ [Save (product_id document)] |})
          end
        else ({| status_code := 500; json := Failure (message validation_error) |}, tried)
    end.
Proof.
  intros Hv. cbv zeta. unfold createProduct. rewrite Hv.
  destruct (files req) as [[| f fs] |]; cbn [default].
  - unfold insert_new. cbn [initial db calls app Promise_all earliest_rejection imap map].
    destruct (schema_valid document); [| reflexivity].
    destruct (products !! product_id document); [reflexivity |].
    destruct (sku_taken products (sku document)); reflexivity.
  - rewrite upload_all_run. cbn [initial db calls app].
    destruct (Promise_all _) as [vs | e]; [| reflexivity].
    unfold insert_new. rewrite schema_valid_set_images.
    cbn [db calls product_id sku set_images].
    destruct (schema_valid document); [| reflexivity].
    destruct (products !! product_id document); [reflexivity |].
    destruct (sku_taken products (sku document)); reflexivity.
  - unfold insert_new. cbn [initial db calls app Promise_all earliest_rejection imap map].
    destruct (schema_valid document); [| reflexivity].
    destruct (products !! product_id document); [reflexivity |].
    destruct (sku_taken products (sku document)); reflexivity.
Qed.

(** X16. [createProduct] of a document that passes the validators of
    the schema, with a fresh id and a free SKU, once the validation of the
    route passed and every upload resolved, answers 201 and stores the
    document under its id with the final price the hook computes; when
    files came
    with the request the stored images are exactly the uploaded ones, one
    per file in order (images of the body are replaced), otherwise they are
    those of the document. *)
Theorem createProduct_stores_document (document : Product) (env : Env) (req : Request)
        (products : gmap string Product) :
  validation_errors req = [] ->
  schema_valid document = true ->
  products !! product_id document = None ->
  sku_taken products (sku document) = false ->
  (forall i f, default [] (files req) !! i = Some f -> upload_ok env i f = true) ->
  let run := createProduct document env req (initial products) in
  exists saved,
    run.1 = {| status_code := 201; json := Data saved |}
    /\ db run.2 = <[product_id document := saved]> products
    /\ same_core saved document
    /\ ratings saved = ratings document
    /\ finalPrice saved = recomputeFinalPrice (price document) (discount document)
    /\ match default [] (files req) with
       | [] => images saved = images document
       | fs => length (images saved) = length fs
               /\ forall i f, fs !! i = Some f ->
                    exists v,
                      outcome (upload_stream (cloudinary env) i (buffer f)) = Resolved v
                      /\ images saved !! i
                         = Some {| image_id := ObjectId env i;
                                   url := Some (secure_url v);
                                   public_id := Some (uploaded_public_id v) |}
       end.
Proof.
  intros Hv Hvalid Hfresh Hsku Hup. cbv zeta.
  rewrite (createProduct_run document env req products Hv). cbv zeta.
  destruct (uploads_resolve env _ Hup) as (vs & -> & Hlen & Hvs).
  rewrite Hvalid, Hfresh, Hsku.
  eexists. split; [reflexivity |]. split; [reflexivity |].
  destruct (default [] (files req)) as [| f fs] eqn:Hfs.
  - repeat split.
  - split; [repeat split |]. split; [reflexivity |]. split; [reflexivity |].
    cbn [images pre_save set_finalPrice set_images].
    split; [now rewrite length_imap |].
    intros i g Hg. destruct (Hvs i g Hg) as (v & Hv' & Ho).
    exists v. split; [exact Ho |]. rewrite list_lookup_imap, Hv'. reflexivity.
Qed.

Lemma createProduct_stores_document_witness :
  let run := createProduct Shop.shade (Sample.env [] [])
               (Sample.with_files [Sample.file1] Shop.on_shade) (initial Sample.catalog) in
  schema_valid Shop.shade = true
  /\ Sample.catalog !! product_id Shop.shade = None
  /\ sku_taken Sample.catalog (sku Shop.shade) = false
  /\ exists saved,
       run.1 = {| status_code := 201; json := Data saved |}
       /\ db run.2 = <["64f1a2b3c4d5e6f708192a02" := saved]> Sample.catalog
       /\ finalPrice saved = Num.of_Z 30.
Proof.
  cbv zeta. split; [reflexivity |]. split; [reflexivity |]. split; [reflexivity |].
  assert (Hup : forall i f,
             default [] (files (Sample.with_files [Sample.file1] Shop.on_shade)) !! i = Some f ->
             upload_ok (Sample.env [] []) i f = true)
    by (intros [| i] f Hf; [reflexivity | discriminate]).
  destruct (createProduct_stores_document Shop.shade (Sample.env [] [])
              (Sample.with_files [Sample.file1] Shop.on_shade) Sample.catalog
              eq_refl eq_refl eq_refl eq_refl Hup)
    as (saved & H1 & H2 & _ & _ & H3 & _).
  exists saved. split; [exact H1 |]. split; [exact H2 |].
  rewrite H3. vm_compute. reflexivity.
Defined.

(** X17. [createProduct] writes only when it answers 201: after any
    other answer the collection is as before. In particular, once the
    validation of the route and the uploads passed: when the document
    passes the validators of the schema and its SKU is already taken, the
    answer is 400 "Product with this SKU already exists"; when the
    document does not pass them (a discount of 150, which the route does
    not check), the answer is 500 with the message of the validation
    error; in both cases nothing is stored and the uploads of the request
    have already been sent. *)
Theorem createProduct_writes_only_on_201 (document : Product) (env : Env) (req : Request)
        (products : gmap string Product) :
  let run := createProduct document env req (initial products) in
  (status_code run.1 <> 201%nat -> db run.2 = products)
  /\ (validation_errors req = [] ->
      (forall i f, default [] (files req) !! i = Some f -> upload_ok env i f = true) ->
      let tried :=
        {| db := products;
           calls := map (fun f => UploadStream (buffer f)) (default [] (files req))
                    ++ [Save (product_id document)] |} in
      (schema_valid document = true ->
       sku_taken products (sku document) = true ->
       run = ({| status_code := 400;
                 json := Failure "Product with this SKU already exists" |}, tried))
      /\ (schema_valid document = false ->
          run = ({| status_code := 500; json := Failure (message validation_error) |},
                 tried))).
Proof.
  cbv zeta. split.
  - destruct (validation_errors req) as [| err errs] eqn:Hv.
    + rewrite (createProduct_run document env req products Hv). cbv zeta.
      destruct (Promise_all _) as [vs | e]; [| reflexivity].
      destruct (schema_valid document); [| reflexivity].
      destruct (products !! product_id document); [reflexivity |].
      destruct (sku_taken products (sku document)); [reflexivity |].
      cbn. intros H. contradiction.
    + unfold createProduct. rewrite Hv. reflexivity.
  - intros Hv Hup.
    rewrite (createProduct_run document env req products Hv). cbv zeta.
    destruct (uploads_resolve env _ Hup) as (vs & -> & _).
    split.
    + intros -> Hsku.
      rewrite Hsku. destruct (products !! product_id document); reflexivity.
    + intros ->. reflexivity.
Qed.

Lemma createProduct_writes_only_on_201_witness :
  let req := Sample.with_files [Sample.file1] Shop.on_shade in
  let run := createProduct Shop.shade (Sample.env [] []) req
               (initial Shop.two_products) in
  schema_valid Shop.shade = true
  /\ sku_taken Shop.two_products (sku Shop.shade) = true
  /\ run = ({| status_code := 400;
               json := Failure "Product with this SKU already exists" |},
            {| db := Shop.two_products;
               calls := [UploadStream [Byte.x01]; Save "64f1a2b3c4d5e6f708192a02"] |}).
Proof.
  cbv zeta. split; [reflexivity |]. split; [reflexivity |].
  assert (Hup : forall i f,
             default [] (files (Sample.with_files [Sample.file1] Shop.on_shade)) !! i = Some f ->
             upload_ok (Sample.env [] []) i f = true)
    by (intros [| i] f Hf; [reflexivity | discriminate]).
  exact (proj1 (proj2 (createProduct_writes_only_on_201 Shop.shade (Sample.env [] [])
                         (Sample.with_files [Sample.file1] Shop.on_shade)
                         Shop.two_products)
                      eq_refl Hup)
               eq_refl eq_refl).
Defined.

(** X18. [createProduct] keeps the SKUs of the collection distinct, and
    keeps every product stored under its own id. *)
Theorem createProduct_keeps_skus_unique (document : Product) (env : Env) (req : Request)
        (products : gmap string Product) :
  unique_skus products ->
  keyed_by_id products ->
  let after := db (createProduct document env req (initial products)).2 in
  unique_skus after /\ keyed_by_id after.
Proof.
  intros Huniq Hkey. cbv zeta.
  destruct (validation_errors req) as [| err errs] eqn:Hv;
    [| unfold createProduct; rewrite Hv; now split].
  rewrite (createProduct_run document env req products Hv). cbv zeta.
  destruct (Promise_all _) as [vs | e]; [| now split].
  destruct (schema_valid document); [| now split].
  destruct (products !! product_id document) eqn:Hfresh; [now split |].
  destruct (sku_taken products (sku document)) eqn:Hsku; [now split |].
  cbn [snd db].
  set (product := match default [] (files req) with
                  | [] => document
                  | _ :: _ => set_images (imap (uploaded_image env) vs) document
                  end).
  assert (Hcore : sku (pre_save product) = sku document
                  /\ product_id (pre_save product) = product_id document)
    by (subst product; destruct (default [] (files req)); split; reflexivity).
  destruct Hcore as [Hs Hi].
  assert (Hfree : forall i p, products !! i = Some p -> sku p <> sku document).
  { intros i p Hp Heq.
    assert (Ht : sku_taken products (sku document) = true)
      by (apply sku_taken_iff; eauto).
    congruence. }
  split.
  - intros i j p q Hp Hq Heq.
    rewrite lookup_insert_Some in Hp. rewrite lookup_insert_Some in Hq.
    destruct Hp as [[<- <-] | [Hni Hp]], Hq as [[<- <-] | [Hnj Hq]].
    + reflexivity.
    + rewrite Hs in Heq. exfalso. apply (Hfree j q Hq). congruence.
    + rewrite Hs in Heq. exfalso. now apply (Hfree i p Hp).
    + now apply (Huniq i j p q).
  - intros i p Hp. rewrite lookup_insert_Some in Hp.
    destruct Hp as [[<- <-] | [_ Hp]]; [exact Hi | now apply Hkey].
Qed.

Lemma createProduct_keeps_skus_unique_witness :
  let after := db (createProduct Shop.shade (Sample.env [] []) Shop.on_shade
                     (initial Sample.catalog)).2 in
  unique_skus Sample.catalog /\ keyed_by_id Sample.catalog
  /\ unique_skus after /\ keyed_by_id after.
Proof.
  cbv zeta.
  assert (Hu : unique_skus Sample.catalog).
  { intros i j p q. unfold Sample.catalog. rewrite !lookup_singleton_Some.
    intros [<- _] [<- _] _. reflexivity. }
  assert (Hk : keyed_by_id Sample.catalog).
  { intros i p. unfold Sample.catalog. rewrite lookup_singleton_Some.
    intros [<- <-]. reflexivity. }
  split; [exact Hu |]. split; [exact Hk |].
  exact (createProduct_keeps_skus_unique Shop.shade (Sample.env [] []) Shop.on_shade
           Sample.catalog Hu Hk).
Defined.

(** ** The slug of a category *)

Lemma slug_unit_of_any (c : ascii) :
  slug_unit (if not_alphanumeric (toLowerCase_unit c) then "-"%char
             else toLowerCase_unit c) = true.
Proof. destruct c as [[] [] [] [] [] [] [] []]; reflexivity. Qed.

Lemma slug_unit_fixed (c : ascii) :
  slug_unit c = true ->
  (if not_alphanumeric (toLowerCase_unit c) then "-"%char else toLowerCase_unit c) = c.
Proof. destruct c as [[] [] [] [] [] [] [] []]; intros H; try reflexivity; discriminate H. Qed.

Lemma slug_of_name (s : string) :
  replace_not_alphanumeric (toLowerCase s)
  = map_units (fun c => if not_alphanumeric (toLowerCase_unit c) then "-"%char
                        else toLowerCase_unit c) s.
Proof. induction s as [| c s IH]; cbn; [reflexivity | now rewrite <- IH]. Qed.

Lemma slug_units (s : string) :
  String.length (replace_not_alphanumeric (toLowerCase s)) = String.length s
  /\ all_units slug_unit (replace_not_alphanumeric (toLowerCase s)) = true.
Proof.
  rewrite slug_of_name.
  induction s as [| c s [IHlen IHall]]; [split; reflexivity |].
  cbn [map_units String.length all_units]. split; [now rewrite IHlen |].
  now rewrite slug_unit_of_any, IHall.
Qed.

(** X19. Whatever the name (of code units below 256), the slug the hook
    stores has the length of the name and is made of lowercase letters,
    digits and dashes only. *)
Theorem category_slug_is_url_safe (this : Category) :
  String.length (slug (category_pre_save this)) = String.length (category_name this)
  /\ all_units slug_unit (slug (category_pre_save this)) = true.
Proof.
  unfold category_pre_save. cbn [slug]. apply slug_units.
Qed.

(** X20. A name that is already made of lowercase letters, digits and
    dashes is its own slug; hence saving a category under the name of its
    slug gives the same slug again. *)
Theorem category_slug_is_stable (this : Category) :
  (all_units slug_unit (category_name this) = true ->
   slug (category_pre_save this) = category_name this)
  /\ slug (category_pre_save
             {| category_name := slug (category_pre_save this);
                category_description := category_description this;
                slug := slug (category_pre_save this) |})
     = slug (category_pre_save this).
Proof.
  assert (Hfix : forall s, all_units slug_unit s = true ->
                           replace_not_alphanumeric (toLowerCase s) = s).
  { intros s. rewrite slug_of_name.
    induction s as [| c s IH]; cbn [map_units all_units]; [reflexivity |].
    intros H. apply andb_true_iff in H as [Hc Hs].
    now rewrite (slug_unit_fixed c Hc), (IH Hs). }
  split.
  - intros H. unfold category_pre_save. cbn [slug]. now apply Hfix.
  - unfold category_pre_save at 1. cbn [slug category_name].
    apply Hfix. apply slug_units.
Qed.

Lemma category_slug_is_stable_witness :
  let this := {| category_name := "desk-lamps-2";
                 category_description := "Lamps for desks";
                 slug := EmptyString |} in
  all_units slug_unit (category_name this) = true
  /\ slug (category_pre_save this) = "desk-lamps-2".
Proof.
  cbv zeta. split; [reflexivity |].
  exact (proj1 (category_slug_is_stable
                  {| category_name := "desk-lamps-2";
                     category_description := "Lamps for desks";
                     slug := EmptyString |}) eq_refl).
Defined.

(** ** Updating a profile *)

Section ProfileProperties.

Context {Value : Type}.
Implicit Types (body : list (string * Value)) (user : gmap string Value).

Lemma body_value_None body (key : string) :
  body_value body key = None <-> ~ In key (map fst body).
Proof.
  unfold body_value. induction body as [| [k v] body IH]; cbn; [tauto |].
  destruct (String.eqb_spec k key) as [-> | Hne]; cbn.
  - split; [discriminate | tauto].
  - rewrite IH. tauto.
Qed.

Lemma assign_updates_lookup body (updates : list string) :
  forall user key,
    assign_updates body updates user !! key
    = match (if existsb (String.eqb key) updates then body_value body key else None) with
      | Some v => Some v
      | None => user !! key
      end.
Proof.
  unfold assign_updates.
  induction updates as [| update rest IH]; intros user key; [reflexivity |].
  cbn [fold_left existsb]. rewrite IH.
  destruct (String.eqb_spec key update) as [-> | Hne]; cbn [orb].
  - destruct (existsb (String.eqb update) rest);
      destruct (body_value body update) as [v |] eqn:Hv; try reflexivity.
    apply lookup_insert_eq.
  - assert (Hu : match body_value body update with
                  | Some v => <[update := v]> user
                  | None => user
                  end !! key = user !! key).
    { destruct (body_value body update); [| reflexivity].
      apply lookup_insert_ne. congruence. }
    now rewrite Hu.
Qed.


(** X22. Whatever the body, the document [updateProfile] hands to
    [save] agrees with the user document on every path other than [name]
    and [email]; and when the request is not rejected, [name] and [email]
    carry the value of the body where the body has the key and their
    former value where it has not. *)
Theorem updateProfile_changes_name_and_email_only
        (save : gmap string Value -> Settled (gmap string Value))
        (errors : list string) body user (handed : gmap string Value) :
  In handed (updateProfile save errors body user).2 ->
  (updateProfile save errors body user).2 = [handed]
  /\ (forall key, key <> "name" -> key <> "email" -> handed !! key = user !! key)
  /\ (forall key, handed !! key
                  = match body_value body key with
                    | Some v => Some v
                    | None => user !! key
                    end).
Proof.
  unfold updateProfile. destruct errors as [| err errs]; [| intros []].
  destruct (forallb _ (map fst body)) eqn:Hall; cbn [negb]; [| intros []].
  assert (Hin : In handed [assign_updates body (map fst body) user] ->
                handed = assign_updates body (map fst body) user)
    by (intros [H | []]; congruence).
  assert (Hkeys : forall key, existsb (String.eqb key) (map fst body) = false ->
                              body_value body key = None).
  { intros key Hk. apply body_value_None. intros Hi.
    assert (Ht : existsb (String.eqb key) (map fst body) = true)
      by (apply existsb_exists; exists key; split; [exact Hi | apply String.eqb_refl]).
    congruence. }
  assert (Hlookup : forall key,
             assign_updates body (map fst body) user !! key
             = match body_value body key with
               | Some v => Some v
               | None => user !! key
               end).
  { intros key. rewrite assign_updates_lookup.
    destruct (existsb (String.eqb key) (map fst body)) eqn:Hk; [reflexivity |].
    now rewrite (Hkeys key Hk). }
  assert (Hother : forall key, key <> "name" -> key <> "email" ->
                               body_value body key = None).
  { intros key Hn He. apply body_value_None. intros Hi.
    rewrite forallb_forall in Hall. specialize (Hall key Hi). cbn in Hall.
    destruct (String.eqb_spec key "name"); [contradiction |].
    destruct (String.eqb_spec key "email"); [contradiction | discriminate]. }
  destruct (save _); cbn [snd]; intros H; apply Hin in H; subst handed;
    (split; [reflexivity |]); (split; [| exact Hlookup]);
    intros key Hn He; now rewrite Hlookup, (Hother key Hn He).
Qed.

End ProfileProperties.


Lemma updateProfile_changes_name_and_email_only_witness :
  let handed := <["name" := "Ann B"]> sample_user in
  In handed (updateProfile plain_save [] [("name", "Ann B")] sample_user).2
  /\ handed !! "role" = sample_user !! "role".
Proof.
  cbv zeta.
  assert (Hin : In (<["name" := "Ann B"]> sample_user)
                   (updateProfile plain_save [] [("name", "Ann B")] sample_user).2)
    by (left; reflexivity).
  split; [exact Hin |].
  destruct (updateProfile_changes_name_and_email_only plain_save []
              [("name", "Ann B")] sample_user (<["name" := "Ann B"]> sample_user) Hin)
    as (_ & H & _).
  apply H; discriminate.
Defined.

(** ** A stale final price and the next save *)

(** X23. The generic update leaves the final price as it was, and the
    next request on the same product that one of the four saving handlers
    answers with 200 puts it right: the stored product then has the price
    and the discount the update wrote, and the final price the rule gives
    for them. *)
Theorem stale_finalPrice_repaired_by_next_save (h : Handler) (env env' : Env)
        (req req' : Request) (products : gmap string Product) (product : Product) :
  In h [uploadProductImages; deleteProductImage; updateProductImages; addProductRating] ->
  products !! params_id req = Some product ->
  product_id product = params_id req ->
  update_validators (body_update req) = true ->
  params_id req' = params_id req ->
  let updated := updateProduct env req (initial products) in
  let next := h env' req' (initial (db updated.2)) in
  status_code next.1 = 200%nat ->
  exists stale saved,
    db updated.2 !! params_id req = Some stale
    /\ finalPrice stale = default (finalPrice product) (new_finalPrice (body_update req))
    /\ db next.2 !! params_id req = Some saved
    /\ price saved = default (price product) (new_price (body_update req))
    /\ discount saved = default (discount product) (new_discount (body_update req))
    /\ finalPrice saved = recomputeFinalPrice (price saved) (discount saved).
Proof.
  intros Hh Hp Hid Hv Hsame. cbv zeta.
  rewrite (updateProduct_run env req products product Hv Hp). cbn [snd db].
  set (stale := apply_update (body_update req) product).
  intros H200.
  destruct (save_handlers h Hh env' req' (<[params_id req := stale]> products))
    as [[Hne _] | (_ & found & q & Hfound & Hq & Hdb)]; [contradiction |].
  rewrite Hsame, lookup_insert_eq in Hfound. injection Hfound as <-.
  exists stale, (pre_save q). split; [apply lookup_insert_eq |]. split; [reflexivity |].
  rewrite Hdb. change (product_id stale) with (product_id product). rewrite Hid.
  split; [apply lookup_insert_eq |].
  destruct Hq as (_ & _ & _ & Hprice & _ & _ & _ & Hdiscount & _).
  cbn [price discount finalPrice pre_save set_finalPrice].
  rewrite Hprice, Hdiscount. repeat split.
Qed.

Lemma stale_finalPrice_repaired_by_next_save_witness :
  let body := {| new_name := None; new_price := Some (Num.of_Z 200);
                 new_discount := None; new_finalPrice := None;
                 new_quantity := None |} in
  let updated := updateProduct (Sample.env [] []) (Sample.with_update body Sample.bare)
                   (initial Sample.catalog) in
  let next := addProductRating (Sample.env [] [])
                (Sample.with_rating "64f1a2b3c4d5e6f7081920c3" 4 None Sample.bare) (initial (db updated.2)) in
  status_code next.1 = 200%nat
  /\ exists stale saved,
       db updated.2 !! "64f1a2b3c4d5e6f708192a01" = Some stale
       /\ finalPrice stale = Num.of_Z 100
       /\ db next.2 !! "64f1a2b3c4d5e6f708192a01" = Some saved
       /\ finalPrice saved = Num.of_Z 200.
Proof.
  cbv zeta. split; [reflexivity |].
  destruct (stale_finalPrice_repaired_by_next_save addProductRating
              (Sample.env [] []) (Sample.env [] [])
              (Sample.with_update
                 {| new_name := None; new_price := Some (Num.of_Z 200);
                    new_discount := None; new_finalPrice := None;
                    new_quantity := None |} Sample.bare)
              (Sample.with_rating "64f1a2b3c4d5e6f7081920c3" 4 None Sample.bare)
              Sample.catalog Sample.lamp
              ltac:(do 3 right; left; reflexivity)
              eq_refl eq_refl eq_refl eq_refl eq_refl)
    as (stale & saved & H1 & H2 & H3 & H4 & H5 & H6).
  exists stale, saved. split; [exact H1 |]. split; [exact H2 |]. split; [exact H3 |].
  rewrite H6, H4, H5. reflexivity.
Defined.
